(** * cloudprinting: a shallow embedding of [cloudprinting/client.py]

    The client is a thin layer over an HTTP transport: every operation
    builds one request, sends it, and maps the response either to the
    decoded JSON body or to the response object itself.  The development
    embeds the six operations of [client.py] as computations that may
    raise and that record every request handed to the transport, over an
    environment that stands for the external collaborators (the
    [requests] transport, the file system, [mimetypes] and [json]). *)

From Stdlib.Strings Require Import Byte.
From stdpp Require Import base strings list gmap.

Set Warnings "-register-all,-clear-no-such-hyp".

Local Open Scope Z_scope.
Local Open Scope string_scope.

(** ** Python values *)

(** Exceptions the embedded code can raise. *)
Inductive exn :=
| TypeError
| KeyError (k : string)
| ValueError
| IOError (path : string)
| AttributeError
| ConnectionError.

(** A pure computation either returns or raises. *)
Inductive res (A : Type) :=
| Ok (a : A)
| Raise (e : exn).
Arguments Ok {A} a.
Arguments Raise {A} e.

#[global] Instance res_ret : MRet res := λ A a, Ok a.
#[global] Instance res_fmap : FMap res := λ A B f m,
  match m with
  | Ok a => Ok (f a)
  | Raise e => Raise e
  end.
#[global] Instance res_bind : MBind res := λ A B f m,
  match m with
  | Ok a => f a
  | Raise e => Raise e
  end.

(** What [json.loads] produces: [None], [bool], [int], [float] (kept as
    its binary64 bit pattern), [str], [list] and [dict] with string keys
    (in insertion order). *)
Inductive json :=
| JNull
| JBool (b : bool)
| JInt (n : Z)
| JFloat (bits : Z)
| JStr (s : string)
| JList (l : list json)
| JDict (kvs : list (string * json)).

(** The part of a [requests.Response] the client looks at. *)
Record Response := mkResponse {
  status_code : Z;
  content : list byte;
  has_json : bool;                 (* hasattr(r, "json") *)
  content_type_header : option string
}.

(** Objects that flow through the client: decoded JSON (Python's [None]
    is [VJson JNull]), a [bytes] object, or a response object. *)
Inductive value :=
| VJson (j : json)
| VBytes (b : list byte)
| VResp (r : Response).

Abbreviation VNone := (VJson JNull).

(** ** Requests *)

Inductive http_method := GET | POST.

(** A value of the [data] dict handed to [requests]. *)
Inductive form_value :=
| FNone
| FStr (s : string)
| FList (l : list string).

(** A [bytes] or a [str] object: what a stream's [read()] returns, and
    what [content] is after lines 134-142. *)
Inductive payload :=
| PBytes (b : list byte)
| PStr (s : string).

(** The [content] argument of [submit_job]: a [(name, file-like)] pair,
    the stream standing for what its [read()] returns ([bytes] for a
    binary stream, [str] for a text stream), or a string (a path or a
    URL). *)
Inductive content_arg :=
| CPair (name : string) (stream : payload)
| CStr (s : string).

(** The [**kwargs] of an operation.  The keys [url], [params], [data] and
    [files] meet arguments the client passes itself; every other key
    (auth, headers, timeout, ...) is a transport option. *)
Record kwargs := mkKwargs {
  kw_url : option string;
  kw_params : option (gmap string string);
  kw_data : option (gmap string form_value);
  kw_files : option (gmap string (string * payload));
  kw_options : list (string * string)
}.

(** One call of [requests.get] or [requests.post] as the library
    receives it; an argument that is not passed is [None]. *)
Record Request := mkRequest {
  req_method : http_method;
  req_url : string;
  req_params : option (gmap string string);
  req_data : option (gmap string form_value);
  req_files : option (gmap string (string * payload));
  req_options : list (string * string)
}.

(** ** Computations that talk to the transport *)

(** The requests handed to the transport so far, oldest first. *)
Definition trace := list Request.

(** A computation takes the trace so far and gives its outcome and the
    trace it leaves; the trace survives a raised exception. *)
Record M (A : Type) := mkM { run : trace → res A * trace }.
Arguments mkM {A} run.
Arguments run {A} m t.

#[global] Instance M_ret : MRet M := λ A a, mkM (λ t, (Ok a, t)).
#[global] Instance M_bind : MBind M := λ A B f m,
  mkM (λ t,
    match run m t with
    | (Ok a, t') => run (f a) t'
    | (Raise e, t') => (Raise e, t')
    end).

(** A pure computation, run where it stands. *)
Definition lift {A} (r : res A) : M A := mkM (λ t, (r, t)).

(** ** External collaborators *)

Class Env := {
  (** the transport: the response to a request, or a raised error; the
      answer may depend on the requests made before *)
  http : trace → Request → res Response;
  (** [open(path, 'rb').read()]: the whole file, [None] when it cannot
      be opened *)
  read_file : string → option (list byte);
  (** [mimetypes.guess_type(name)[0]] *)
  guess_type : string → option string;
  (** JSON decoding of a response body ([r.json()], [json.loads(r.text)]) *)
  json_loads : list byte → res json;
  (** [json.dumps] *)
  json_dumps : json → string
}.

(** ** Python primitives used by the client *)

Definition codes_ok : Z := 200.

Fixpoint dict_get (k : string) (kvs : list (string * json)) : option json :=
  match kvs with
  | [] => None
  | (k', v) :: rest => if decide (k' = k) then Some v else dict_get k rest
  end.

(** [obj[key]] for a string key. *)
Definition py_getitem (obj : value) (key : string) : res value :=
  match obj with
  | VJson (JDict kvs) =>
      match dict_get key kvs with
      | Some v => Ok (VJson v)
      | None => Raise (KeyError key)
      end
  | _ => Raise TypeError
  end.

Fixpoint chars (s : string) : list string :=
  match s with
  | EmptyString => []
  | String c rest => String c EmptyString :: chars rest
  end.

(** [Response.iter_content(n)]: the body in pieces of [n] bytes. *)
Fixpoint iter_content_fuel (fuel : nat) (n : nat) (b : list byte)
  : list (list byte) :=
  match fuel with
  | O => []
  | S fuel' =>
      match b with
      | [] => []
      | _ => take n b :: iter_content_fuel fuel' n (drop n b)
      end
  end.

Definition iter_content (n : nat) (b : list byte) : list (list byte) :=
  iter_content_fuel (length b) n b.

(** The items a [for] loop sees.  A response iterates over its body in
    pieces of 128 bytes ([Response.__iter__]). *)
Definition py_iter (obj : value) : res (list value) :=
  match obj with
  | VJson (JList l) => Ok (VJson <$> l)
  | VJson (JDict kvs) => Ok ((λ kv, VJson (JStr kv.1)) <$> kvs)
  | VJson (JStr s) => Ok ((λ c, VJson (JStr c)) <$> chars s)
  | VJson _ => Raise TypeError
  | VBytes b => Ok ((λ x, VJson (JInt (Z.of_N (Byte.to_N x)))) <$> b)
  | VResp r => Ok (VBytes <$> iter_content 128 (content r))
  end.

(** [v == id] for a string [id]. *)
Definition py_eq_str (v : value) (id : string) : bool :=
  match v with
  | VJson (JStr s) => bool_decide (s = id)
  | _ => false
  end.

(** The ['id'] entry of a job, when the job is a dict that has one. *)
Definition job_id (j : json) : option json :=
  match j with
  | JDict kvs => dict_get "id" kvs
  | _ => None
  end.

(** [a or b] on optional strings: the empty string is falsy. *)
Definition py_or (a b : option string) : option string :=
  match a with
  | Some s => if decide (s = "") then b else Some s
  | None => b
  end.

Definition form_of_option (o : option string) : form_value :=
  match o with
  | Some s => FStr s
  | None => FNone
  end.

(** [str.rfind(c)]: the index of the last [c], or [-1]. *)
Fixpoint rfind_from (c : Ascii.ascii) (s : string) (i last : Z) : Z :=
  match s with
  | EmptyString => last
  | String a rest =>
      rfind_from c rest (i + 1) (if decide (a = c) then i else last)
  end.

Definition rfind (c : Ascii.ascii) (s : string) : Z := rfind_from c s 0 (-1).

(** [s[n:]] *)
Fixpoint string_drop (n : nat) (s : string) : string :=
  match n, s with
  | O, _ => s
  | S n', String _ rest => string_drop n' rest
  | S _, EmptyString => EmptyString
  end.

(** The path separator ['/'] (code 47). *)
Definition sep : Ascii.ascii :=
  Ascii.Ascii true true true true false true false false.

(** [os.path.basename] of [posixpath]:
    [i = p.rfind('/') + 1; return p[i:]]. *)
Definition basename (p : string) : string :=
  let i := rfind sep p + 1 in
  string_drop (Z.to_nat i) p.

(** [c in s] *)
Fixpoint occurs (c : Ascii.ascii) (s : string) : bool :=
  match s with
  | EmptyString => false
  | String a rest => bool_decide (a = c) || occurs c rest
  end.

(** How [requests] encodes one entry of [data]: a [None] value is left
    out, a list repeats the field once per element. *)
Definition encode_value (v : form_value) : option (list string) :=
  match v with
  | FNone => None
  | FStr s => Some [s]
  | FList [] => None
  | FList l => Some l
  end.

Definition encode_form (data : gmap string form_value)
  : gmap string (list string) :=
  omap encode_value data.

(** The form field [key] of a request, and its file part [key]. *)
Definition form_field (req : Request) (key : string) : option form_value :=
  d ← req_data req; d !! key.

Definition file_part (req : Request) (key : string)
  : option (string * payload) :=
  f ← req_files req; f !! key.

(** The field [key] as [requests] puts it on the wire. *)
Definition sent_field (req : Request) (key : string) : option (list string) :=
  d ← req_data req; encode_form d !! key.

(** A keyword the client passes itself ([own]) next to the same key of
    [**kwargs]: Python refuses the call when both are there. *)
Definition py_keyword {A} (own extra : option A) : res (option A) :=
  match own, extra with
  | Some _, Some _ => Raise TypeError
  | Some x, None => Ok (Some x)
  | None, y => Ok y
  end.

(** The call [requests.get(url, ..., **kwargs)] or
    [requests.post(url, ..., **kwargs)]: [params], [data] and [files] are
    the keywords the client writes out ([None] when it writes none).  A
    key [url] in [kwargs] meets the positional argument. *)
Definition requests_call (m : http_method) (url : string)
    (params : option (gmap string string))
    (data : option (gmap string form_value))
    (files : option (gmap string (string * payload)))
    (kw : kwargs) : res Request :=
  match kw_url kw with
  | Some _ => Raise TypeError
  | None =>
      p ← py_keyword params (kw_params kw);
      d ← py_keyword data (kw_data kw);
      f ← py_keyword files (kw_files kw);
      Ok (mkRequest m url p d f (kw_options kw))
  end.

(** ** The client *)

Section client.
Context `{Env}.

Definition CLOUDPRINT_URL : string := "https://www.google.com/cloudprint".

(** Handing a request to the transport. *)
Definition send (req : Request) : M Response :=
  mkM (λ t, (http t req, (t ++ [req])%list)).

(** [r.json()]; a response without that attribute raises. *)
Definition resp_json (r : Response) : res json :=
  if has_json r then json_loads (content r) else Raise AttributeError.

(* lines 18-20: requests.post(url, params=params, **kwargs) *)
Definition get_printer_request (id : string) (kw : kwargs) : res Request :=
  let url := CLOUDPRINT_URL +:+ "/printer" in
  let params : gmap string string := {[ "printerid" := id ]} in
  requests_call POST url (Some params) None None kw.

(* lines 10-23 *)
Definition get_printer (id : string) (kw : kwargs) : M value :=
  req ← lift (get_printer_request id kw);
  r ← send req;
  if decide (status_code r ≠ codes_ok) then mret (VResp r)
  else j ← lift (resp_json r); mret (VJson j).

(* lines 54-55: requests.post(url, data={"jobid": id}, **kwargs) *)
Definition delete_job_request (id : string) (kw : kwargs) : res Request :=
  let url := CLOUDPRINT_URL +:+ "/deletejob" in
  let data : gmap string form_value := {[ "jobid" := FStr id ]} in
  requests_call POST url None (Some data) None kw.

(* lines 45-56 *)
Definition delete_job (id : string) (kw : kwargs) : M value :=
  req ← lift (delete_job_request id kw);
  r ← send req;
  if decide (status_code r = codes_ok)
  then j ← lift (resp_json r); mret (VJson j)
  else mret (VResp r).

(* lines 74-78: requests.get(url, params=params, **kwargs) *)
Definition list_jobs_request (printer : option string) (kw : kwargs)
  : res Request :=
  let params : gmap string string :=
    match printer with
    | Some p => <[ "printerid" := p ]> ∅
    | None => ∅
    end in
  let url := CLOUDPRINT_URL +:+ "/jobs" in
  requests_call GET url (Some params) None None kw.

(* lines 59-83 *)
Definition list_jobs (printer : option string) (kw : kwargs) : M value :=
  req ← lift (list_jobs_request printer kw);
  r ← send req;
  if decide (status_code r ≠ codes_ok) then mret (VResp r)
  else
    body ← lift (if has_json r then resp_json r else json_loads (content r));
    lift (py_getitem (VJson body) "jobs").

(* lines 40-42; falling off the loop returns None *)
Fixpoint scan_jobs (id : string) (jobs : list value) : res value :=
  match jobs with
  | [] => Ok VNone
  | job :: rest =>
      v ← py_getitem job "id";
      if py_eq_str v id then Ok job else scan_jobs id rest
  end.

(* lines 26-42 *)
Definition get_job (id : string) (printer : option string) (kw : kwargs)
  : M value :=
  jobs ← list_jobs printer kw;
  items ← lift (py_iter jobs);
  lift (scan_jobs id items).

(* lines 98-99: requests.get(url, **kwargs) *)
Definition list_printers_request (kw : kwargs) : res Request :=
  let url := CLOUDPRINT_URL +:+ "/search" in
  requests_call GET url None None None kw.

(* lines 86-102 *)
Definition list_printers (kw : kwargs) : M value :=
  req ← lift (list_printers_request kw);
  r ← send req;
  if decide (status_code r ≠ codes_ok) then mret (VResp r)
  else j ← lift (resp_json r); mret (VJson j).

(* lines 134-142: the name and the normalised content *)
Definition normalise_content (content : content_arg)
    (content_type : option string) : res (string * payload) :=
  match content with
  | CPair name stream => Ok (name, stream)
  | CStr s =>
      if decide (content_type = Some "url") then Ok (s, PStr s)
      else
        match read_file s with
        | Some b => Ok (basename s, PBytes b)
        | None => Raise (IOError s)
        end
  end.

(* lines 144-159: the [data] dict before the dispatch of line 163 *)
Definition submit_data (printer : string) (name : string)
    (title : option string) (ticket : option json)
    (tags : option (list string)) (content_type : option string)
  : gmap string form_value :=
  let title := match title with None => name | Some t => t end in
  let ticket := match ticket with None => JList [JDict []] | Some t => t end in
  let data : gmap string form_value :=
    <[ "printerid" := FStr printer ]>
    (<[ "title" := FStr title ]>
    (<[ "contentType" := form_of_option (py_or content_type (guess_type name)) ]>
    (<[ "ticket" := FStr (json_dumps ticket) ]> ∅))) in
  match tags with
  | Some (t :: ts) => <[ "tag" := FList (t :: ts) ]> data
  | _ => data
  end.

(* lines 161, 164-165: requests.post(url, data=data, **kwargs) with the
   content as a form field *)
Definition form_request (printer name : string) (title : option string)
    (ticket : option json) (tags : option (list string))
    (content_type : option string) (kw : kwargs) (s : string)
  : res Request :=
  let data := submit_data printer name title ticket tags content_type in
  let url := CLOUDPRINT_URL +:+ "/submit" in
  requests_call POST url None (Some (<[ "content" := FStr s ]> data)) None kw.

(* lines 161, 167-168: requests.post(url, data=data, files=files, **kwargs) *)
Definition multipart_request (printer name : string) (title : option string)
    (ticket : option json) (tags : option (list string))
    (content_type : option string) (kw : kwargs) (body : payload)
  : res Request :=
  let data := submit_data printer name title ticket tags content_type in
  let url := CLOUDPRINT_URL +:+ "/submit" in
  let files : gmap string (string * payload) :=
    {[ "content" := (name, body) ]} in
  requests_call POST url None (Some data) (Some files) kw.

(* lines 133-168: the request [submit_job] sends *)
Definition submit_request (printer : string) (content : content_arg)
    (title : option string) (ticket : option json)
    (tags : option (list string)) (content_type : option string)
    (kw : kwargs) : res Request :=
  '(name, content) ← normalise_content content content_type;
  match decide (content_type = Some "url"), content with
  | left _, PStr s =>
      (* content_type == 'url' and isinstance(content, str) *)
      form_request printer name title ticket tags content_type kw s
  | _, _ =>
      multipart_request printer name title ticket tags content_type kw
        content
  end.

(* lines 105-169 *)
Definition submit_job (printer : string) (content : content_arg)
    (title : option string) (ticket : option json)
    (tags : option (list string)) (content_type : option string)
    (kw : kwargs) : M value :=
  req ← lift (submit_request printer content title ticket tags content_type kw);
  r ← send req;
  if decide (status_code r = codes_ok)
  then j ← lift (resp_json r); mret (VJson j)
  else mret (VResp r).

(** What [get_printer], [delete_job], [list_printers] and [submit_job]
    make of a response (lines 21-23, 56, 100-102, 169). *)
Definition respond (r : Response) : res value :=
  if decide (status_code r = codes_ok) then VJson <$> resp_json r
  else Ok (VResp r).

End client.

(** ** Concrete environments

    A transport that answers every request with one fixed response, a
    file system holding one file, and a decoder with a fixed result. *)

Definition no_kwargs : kwargs := mkKwargs None None None None [].

Definition pdf_bytes : list byte := [x25; x50; x44; x46].

Definition demo_read (p : string) : option (list byte) :=
  if decide (p = "/tmp/docs/report.pdf") then Some pdf_bytes else None.

Definition demo_guess (name : string) : option string :=
  if decide (name = "report.pdf") then Some "application/pdf" else None.

Definition demo_dumps (j : json) : string :=
  match j with
  | JList [JDict []] => "[{}]"
  | _ => "null"
  end.

Definition env_of (r : Response) (decoded : res json) : Env :=
  {| http := λ _ _, Ok r;
     read_file := demo_read;
     guess_type := demo_guess;
     json_loads := λ _, decoded;
     json_dumps := demo_dumps |}.

Definition not_found : Response :=
  mkResponse 404 [x4e; x6f] true (Some "text/html").

Definition ok_response : Response :=
  mkResponse 200 [x7b; x7d] true (Some "text/plain").


Definition legacy_response : Response :=
  mkResponse 200 [x7b; x7d] false (Some "text/plain").

Definition server_error : Response := mkResponse 500 [] true None.

Definition job_a : json := JDict [("id", JStr "a"); ("title", JStr "first")].
Definition job_b : json := JDict [("id", JStr "b"); ("title", JStr "second")].
Definition job_a' : json := JDict [("id", JStr "a"); ("title", JStr "third")].
Definition job_without_id : json := JDict [("title", JStr "untitled")].

Definition jobs_body : json :=
  JDict [("success", JBool true); ("jobs", JList [job_a; job_b; job_a'])].

Definition env_404 : Env := env_of not_found (Raise ValueError).
Definition env_200 : Env := env_of ok_response (Ok jobs_body).
Definition env_500 : Env := env_of server_error (Raise ValueError).
Definition env_garbled : Env := env_of ok_response (Raise ValueError).
Definition env_legacy_garbled : Env :=
  env_of legacy_response (Raise ValueError).

(** A listing with two jobs of id ["a"] behind a job of id ["b"]. *)
Definition env_dup : Env :=
  env_of ok_response (Ok (JDict [("jobs", JList [job_b; job_a; job_a'])])).

Definition env_no_jobs : Env :=
  env_of ok_response (Ok (JDict [("success", JBool false)])).

Definition env_bad_entry : Env :=
  env_of ok_response
    (Ok (JDict [("jobs", JList [job_b; job_without_id; job_a])])).

Definition env_jobs_dict : Env :=
  env_of ok_response (Ok (JDict [("jobs", JDict [("a", job_a)])])).

(** A transport that cannot connect, and a file system without files. *)
Definition env_down : Env :=
  {| http := λ _ _, Raise ConnectionError;
     read_file := demo_read;
     guess_type := demo_guess;
     json_loads := λ _, Raise ValueError;
     json_dumps := demo_dumps |}.

Definition env_nofs : Env :=
  {| http := λ _ _, Ok ok_response;
     read_file := λ _, None;
     guess_type := demo_guess;
     json_loads := λ _, Ok jobs_body;
     json_dumps := demo_dumps |}.

(** ** The two monads *)

Lemma bind_Ok {A B} (f : A → res B) (a : A) : Ok a ≫= f = f a.
Proof. reflexivity. Qed.

Lemma bind_Raise {A B} (f : A → res B) (e : exn) : Raise e ≫= f = Raise e.
Proof. reflexivity. Qed.

Lemma bind_Ok_inv {A B} (f : A → res B) (m : res A) (b : B) :
  m ≫= f = Ok b → ∃ a, m = Ok a ∧ f a = Ok b.
Proof. destruct m as [a|e]; [eauto | discriminate]. Qed.

Lemma run_bind {A B} (m : M A) (f : A → M B) t :
  run (m ≫= f) t =
    match run m t with
    | (Ok a, t') => run (f a) t'
    | (Raise e, t') => (Raise e, t')
    end.
Proof. reflexivity. Qed.

Lemma run_lift {A} (r : res A) t : run (lift r) t = (r, t).
Proof. reflexivity. Qed.

Lemma run_ret {A} (a : A) t : run (mret a) t = (Ok a, t).
Proof. reflexivity. Qed.

(** ** One request per operation *)

Section round_trip.
Context `{Env}.

Lemma run_send req t : run (send req) t = (http t req, (t ++ [req])%list).
Proof. reflexivity. Qed.

(** The shape shared by the four operations that return the decoded
    body: no request when the call is refused, otherwise one request and
    the response as [respond] maps it. *)
Lemma run_get_printer id kw t :
  run (get_printer id kw) t =
    match get_printer_request id kw with
    | Ok req => (http t req ≫= respond, (t ++ [req])%list)
    | Raise e => (Raise e, t)
    end.
Proof.
  unfold get_printer. rewrite run_bind, run_lift.
  destruct (get_printer_request id kw) as [req|e]; [|done].
  rewrite run_bind, run_send. destruct (http t req) as [r|e]; [|done].
  simpl. unfold respond.
  destruct (decide (status_code r ≠ codes_ok)),
    (decide (status_code r = codes_ok)); try done.
  by destruct (resp_json r).
Qed.

Lemma run_delete_job id kw t :
  run (delete_job id kw) t =
    match delete_job_request id kw with
    | Ok req => (http t req ≫= respond, (t ++ [req])%list)
    | Raise e => (Raise e, t)
    end.
Proof.
  unfold delete_job. rewrite run_bind, run_lift.
  destruct (delete_job_request id kw) as [req|e]; [|done].
  rewrite run_bind, run_send. destruct (http t req) as [r|e]; [|done].
  simpl. unfold respond.
  destruct (decide (status_code r = codes_ok)); [|done].
  by destruct (resp_json r).
Qed.

Lemma run_list_printers kw t :
  run (list_printers kw) t =
    match list_printers_request kw with
    | Ok req => (http t req ≫= respond, (t ++ [req])%list)
    | Raise e => (Raise e, t)
    end.
Proof.
  unfold list_printers. rewrite run_bind, run_lift.
  destruct (list_printers_request kw) as [req|e]; [|done].
  rewrite run_bind, run_send. destruct (http t req) as [r|e]; [|done].
  simpl. unfold respond.
  destruct (decide (status_code r ≠ codes_ok)),
    (decide (status_code r = codes_ok)); try done.
  by destruct (resp_json r).
Qed.

Lemma run_submit_job printer c title ticket tags ct kw t :
  run (submit_job printer c title ticket tags ct kw) t =
    match submit_request printer c title ticket tags ct kw with
    | Ok req => (http t req ≫= respond, (t ++ [req])%list)
    | Raise e => (Raise e, t)
    end.
Proof.
  unfold submit_job. rewrite run_bind, run_lift.
  destruct (submit_request printer c title ticket tags ct kw) as [req|e];
    [|done].
  rewrite run_bind, run_send. destruct (http t req) as [r|e]; [|done].
  simpl. unfold respond.
  destruct (decide (status_code r = codes_ok)); [|done].
  by destruct (resp_json r).
Qed.

(** [list_jobs]: both branches of line 83 decode the body. *)
Lemma run_list_jobs printer kw t :
  run (list_jobs printer kw) t =
    match list_jobs_request printer kw with
    | Ok req =>
        (r ← http t req;
         if decide (status_code r = codes_ok)
         then body ← json_loads (content r); py_getitem (VJson body) "jobs"
         else Ok (VResp r),
         (t ++ [req])%list)
    | Raise e => (Raise e, t)
    end.
Proof.
  unfold list_jobs. rewrite run_bind, run_lift.
  destruct (list_jobs_request printer kw) as [req|e]; [|done].
  rewrite run_bind, run_send. destruct (http t req) as [r|e]; [|done].
  simpl.
  destruct (decide (status_code r ≠ codes_ok)),
    (decide (status_code r = codes_ok)); try done.
  unfold resp_json.
  destruct (has_json r); by destruct (json_loads (content r)).
Qed.

Lemma run_get_job id printer kw t :
  run (get_job id printer kw) t =
    match run (list_jobs printer kw) t with
    | (Ok jobs, t') => (py_iter jobs ≫= scan_jobs id, t')
    | (Raise e, t') => (Raise e, t')
    end.
Proof.
  unfold get_job. rewrite run_bind.
  destruct (run (list_jobs printer kw) t) as [[jobs|e] t']; [|done].
  rewrite run_bind, run_lift. by destruct (py_iter jobs).
Qed.

End round_trip.

(** ** Failure: the response is passed through *)

Section failure.
Context `{Env}.
Variable r : Response.
Variable t : trace.
Hypothesis Hfail : status_code r ≠ codes_ok.

Lemma respond_failure : respond r = Ok (VResp r).
Proof. unfold respond. by destruct (decide (status_code r = codes_ok)). Qed.

Lemma get_printer_failure id kw req :
  get_printer_request id kw = Ok req → http t req = Ok r →
  run (get_printer id kw) t = (Ok (VResp r), (t ++ [req])%list).
Proof.
  intros Hreq Hr. by rewrite run_get_printer, Hreq, Hr, bind_Ok, respond_failure.
Qed.

Lemma delete_job_failure id kw req :
  delete_job_request id kw = Ok req → http t req = Ok r →
  run (delete_job id kw) t = (Ok (VResp r), (t ++ [req])%list).
Proof.
  intros Hreq Hr. by rewrite run_delete_job, Hreq, Hr, bind_Ok, respond_failure.
Qed.

Lemma list_jobs_failure printer kw req :
  list_jobs_request printer kw = Ok req → http t req = Ok r →
  run (list_jobs printer kw) t = (Ok (VResp r), (t ++ [req])%list).
Proof.
  intros Hreq Hr. rewrite run_list_jobs, Hreq, Hr, bind_Ok.
  by destruct (decide (status_code r = codes_ok)).
Qed.

Lemma list_printers_failure kw req :
  list_printers_request kw = Ok req → http t req = Ok r →
  run (list_printers kw) t = (Ok (VResp r), (t ++ [req])%list).
Proof.
  intros Hreq Hr.
  by rewrite run_list_printers, Hreq, Hr, bind_Ok, respond_failure.
Qed.

Lemma submit_job_failure printer c title ticket tags ct kw req :
  submit_request printer c title ticket tags ct kw = Ok req →
  http t req = Ok r →
  run (submit_job printer c title ticket tags ct kw) t
    = (Ok (VResp r), (t ++ [req])%list).
Proof.
  intros Hreq Hr.
  by rewrite run_submit_job, Hreq, Hr, bind_Ok, respond_failure.
Qed.

(** On a failed listing [get_job] iterates over the response object: the
    loop sees pieces of the body, and subscripting a piece raises. *)
Lemma get_job_failure id printer kw req :
  list_jobs_request printer kw = Ok req → http t req = Ok r →
  run (get_job id printer kw) t =
    (match content r with
     | [] => Ok VNone
     | _ :: _ => Raise TypeError
     end, (t ++ [req])%list).
Proof.
  intros Hreq Hr.
  rewrite run_get_job, (list_jobs_failure _ _ _ Hreq Hr). simpl.
  unfold iter_content. by destruct (content r).
Qed.

End failure.

(** C1: on a 404 answer to the listing [list_jobs] returns the response,
    as the claim says, but [get_job] does not: it loops over the response
    object and raises [TypeError] on the first piece of the body. *)
Theorem get_job_raises_on_failed_listing :
  ∃ req,
    list_jobs_request (Some "printer-1") no_kwargs = Ok req ∧
    @http env_404 [] req = Ok not_found ∧
    status_code not_found ≠ codes_ok ∧
    run (@list_jobs env_404 (Some "printer-1") no_kwargs) []
      = (Ok (VResp not_found), [req]) ∧
    run (@get_job env_404 "job-1" (Some "printer-1") no_kwargs) []
      = (Raise TypeError, [req]) ∧
    fst (run (@get_job env_404 "job-1" (Some "printer-1") no_kwargs) [])
      ≠ Ok (VResp not_found).
Proof.
  eexists. split; [reflexivity|]. split; [reflexivity|].
  split; [vm_compute; discriminate|].
  split; [reflexivity|]. split; [reflexivity|].
  vm_compute. discriminate.
Qed.

(** X15: for [get_printer], [list_jobs], [delete_job], [list_printers]
    and [submit_job], a response whose status code is not
    [requests.codes.ok] is returned as it is after the one request; no
    decoding takes place (the result is the response whatever the decoder
    would do, also when it would raise). *)
Theorem failure_returns_response `{Env} (r : Response) (t : trace) :
  status_code r ≠ codes_ok →
  (∀ id kw req,
     get_printer_request id kw = Ok req → http t req = Ok r →
     run (get_printer id kw) t = (Ok (VResp r), (t ++ [req])%list)) ∧
  (∀ printer kw req,
     list_jobs_request printer kw = Ok req → http t req = Ok r →
     run (list_jobs printer kw) t = (Ok (VResp r), (t ++ [req])%list)) ∧
  (∀ id kw req,
     delete_job_request id kw = Ok req → http t req = Ok r →
     run (delete_job id kw) t = (Ok (VResp r), (t ++ [req])%list)) ∧
  (∀ kw req,
     list_printers_request kw = Ok req → http t req = Ok r →
     run (list_printers kw) t = (Ok (VResp r), (t ++ [req])%list)) ∧
  (∀ printer c title ticket tags ct kw req,
     submit_request printer c title ticket tags ct kw = Ok req →
     http t req = Ok r →
     run (submit_job printer c title ticket tags ct kw) t
       = (Ok (VResp r), (t ++ [req])%list)).
Proof.
  intros Hfail. split; [|split; [|split; [|split]]]; intros.
  - by apply get_printer_failure.
  - by apply list_jobs_failure.
  - by apply delete_job_failure.
  - by apply list_printers_failure.
  - by apply submit_job_failure.
Qed.

Lemma failure_returns_response_witness :
  (∃ req, run (@get_printer env_404 "printer-1" no_kwargs) []
            = (Ok (VResp not_found), [req])) ∧
  (∃ req, run (@list_jobs env_404 (Some "printer-1") no_kwargs) []
            = (Ok (VResp not_found), [req])) ∧
  (∃ req, run (@delete_job env_404 "job-1" no_kwargs) []
            = (Ok (VResp not_found), [req])) ∧
  (∃ req, run (@list_printers env_404 no_kwargs) []
            = (Ok (VResp not_found), [req])) ∧
  (∃ req, run (@submit_job env_404 "printer-1"
                 (CPair "a.txt" (PBytes [x68; x69])) None None None None
                 no_kwargs) []
            = (Ok (VResp not_found), [req])).
Proof.
  assert (Hfail : status_code not_found ≠ codes_ok)
    by (vm_compute; discriminate).
  destruct (@failure_returns_response env_404 not_found [] Hfail)
    as (Hgp & Hlj & Hdj & Hlp & Hsj).
  split; [eexists; apply Hgp; reflexivity|].
  split; [eexists; apply Hlj; reflexivity|].
  split; [eexists; apply Hdj; reflexivity|].
  split; [eexists; apply Hlp; reflexivity|].
  eexists; eapply Hsj; reflexivity.
Defined.

(** X1: when the listing fails, [get_job] loops over the response object:
    it returns [None] for an empty body, raises [TypeError] for any other
    body, and never returns the response. *)
Theorem get_job_on_failed_listing `{Env} (r : Response) t id printer kw req :
  status_code r ≠ codes_ok →
  list_jobs_request printer kw = Ok req →
  http t req = Ok r →
  (content r = [] →
   run (get_job id printer kw) t = (Ok VNone, (t ++ [req])%list)) ∧
  (content r ≠ [] →
   run (get_job id printer kw) t = (Raise TypeError, (t ++ [req])%list)) ∧
  (∀ r', fst (run (get_job id printer kw) t) ≠ Ok (VResp r')).
Proof.
  intros Hfail Hreq Hr. rewrite (get_job_failure r t Hfail _ _ _ _ Hreq Hr).
  destruct (content r); repeat split; done.
Qed.

Lemma get_job_on_failed_listing_witness :
  (∃ req, run (@get_job env_500 "job-1" None no_kwargs) []
            = (Ok VNone, [req])) ∧
  (∃ req, run (@get_job env_404 "job-1" None no_kwargs) []
            = (Raise TypeError, [req])).
Proof.
  split.
  - eexists.
    apply (@get_job_on_failed_listing env_500 server_error [] "job-1" None
             no_kwargs);
      [vm_compute; discriminate | reflexivity | reflexivity | reflexivity].
  - eexists.
    apply (@get_job_on_failed_listing env_404 not_found [] "job-1" None
             no_kwargs);
      [vm_compute; discriminate | reflexivity | reflexivity | discriminate].
Defined.

(** ** The search loop of [get_job] *)



Lemma py_getitem_job_id j v :
  job_id j = Some v → py_getitem (VJson j) "id" = Ok (VJson v).
Proof. destruct j; simpl; try done. by intros ->. Qed.

Lemma py_getitem_id_inv j w :
  py_getitem (VJson j) "id" = Ok w → ∃ v, w = VJson v ∧ job_id j = Some v.
Proof.
  destruct j; simpl; try discriminate.
  destruct (dict_get "id" kvs); [|discriminate].
  intros [= <-]. eauto.
Qed.

Lemma py_getitem_no_id j :
  job_id j = None →
  py_getitem (VJson j) "id" =
    match j with
    | JDict _ => Raise (KeyError "id")
    | _ => Raise TypeError
    end.
Proof. destruct j; simpl; try done. by intros ->. Qed.

Lemma py_eq_str_true v id : py_eq_str (VJson v) id = true ↔ v = JStr id.
Proof.
  destruct v; simpl; try (split; [discriminate | by intros [=]]).
  rewrite bool_decide_eq_true. split; [by intros -> | by intros [= ->]].
Qed.

Lemma py_eq_str_false v id : py_eq_str (VJson v) id = false ↔ v ≠ JStr id.
Proof.
  rewrite <- not_true_iff_false, py_eq_str_true. done.
Qed.

Lemma scan_jobs_cons id job rest :
  scan_jobs id (job :: rest) =
    v ← py_getitem job "id";
    if py_eq_str v id then Ok job else scan_jobs id rest.
Proof. reflexivity. Qed.

(** The loop stops at the first job whose id matches. *)
Lemma scan_jobs_first id pre j post :
  Forall (λ j', ∃ v, job_id j' = Some v ∧ v ≠ JStr id) pre →
  job_id j = Some (JStr id) →
  scan_jobs id (VJson <$> (pre ++ j :: post)%list) = Ok (VJson j).
Proof.
  intros Hpre Hj. induction Hpre as [|j' pre (v & Hv & Hne) _ IH].
  - rewrite app_nil_l, fmap_cons, scan_jobs_cons.
    rewrite (py_getitem_job_id _ _ Hj), bind_Ok.
    by rewrite (proj2 (py_eq_str_true _ _) eq_refl).
  - rewrite <- app_comm_cons, fmap_cons, scan_jobs_cons.
    rewrite (py_getitem_job_id _ _ Hv), bind_Ok.
    by rewrite (proj2 (py_eq_str_false _ _) Hne).
Qed.

(** Without a match the loop runs off the end. *)
Lemma scan_jobs_none id l :
  Forall (λ j', ∃ v, job_id j' = Some v ∧ v ≠ JStr id) l →
  scan_jobs id (VJson <$> l) = Ok VNone.
Proof.
  induction 1 as [|j' l (v & Hv & Hne) _ IH]; [done|].
  rewrite fmap_cons, scan_jobs_cons.
  rewrite (py_getitem_job_id _ _ Hv), bind_Ok.
  by rewrite (proj2 (py_eq_str_false _ _) Hne).
Qed.

(** An entry without id stops the loop with an exception. *)
Lemma scan_jobs_stuck id pre bad post :
  Forall (λ j', ∃ v, job_id j' = Some v ∧ v ≠ JStr id) pre →
  job_id bad = None →
  scan_jobs id (VJson <$> (pre ++ bad :: post)%list) =
    match bad with
    | JDict _ => Raise (KeyError "id")
    | _ => Raise TypeError
    end.
Proof.
  intros Hpre Hbad. induction Hpre as [|j' pre (v & Hv & Hne) _ IH].
  - rewrite app_nil_l, fmap_cons, scan_jobs_cons.
    rewrite (py_getitem_no_id _ Hbad). by destruct bad.
  - rewrite <- app_comm_cons, fmap_cons, scan_jobs_cons.
    rewrite (py_getitem_job_id _ _ Hv), bind_Ok.
    by rewrite (proj2 (py_eq_str_false _ _) Hne).
Qed.

Lemma scan_jobs_inv id (l : list json) v :
  scan_jobs id (VJson <$> l) = Ok v →
  (v = VNone ∧ Forall (λ j, ∃ w, job_id j = Some w ∧ w ≠ JStr id) l) ∨
  (∃ pre j post,
     l = (pre ++ j :: post)%list ∧ v = VJson j ∧
     job_id j = Some (JStr id) ∧
     Forall (λ j', ∃ w, job_id j' = Some w ∧ w ≠ JStr id) pre).
Proof.
  revert v. induction l as [|j l IH]; intros v.
  - intros [= <-]. left. split; [done | constructor].
  - rewrite fmap_cons, scan_jobs_cons. intros Hscan.
    apply bind_Ok_inv in Hscan as (w & Hw & Hscan).
    apply py_getitem_id_inv in Hw as (w' & -> & Hid).
    destruct (py_eq_str (VJson w') id) eqn:Heq.
    + apply py_eq_str_true in Heq as ->. injection Hscan as <-.
      right. exists [], j, l. repeat split; [done | constructor].
    + apply py_eq_str_false in Heq.
      destruct (IH _ Hscan)
        as [[-> Hall] | (pre & j' & post & -> & -> & Hj' & Hpre)].
      * left. split; [done|]. constructor; eauto.
      * right. exists (j :: pre), j', post. repeat split; [done|].
        constructor; eauto.
Qed.


(** A listing of jobs that all carry an id splits at its first match. *)
Lemma jobs_split id l :
  Forall (λ j, is_Some (job_id j)) l →
  Forall (λ j', ∃ v, job_id j' = Some v ∧ v ≠ JStr id) l ∨
  ∃ pre j post,
    l = (pre ++ j :: post)%list ∧
    Forall (λ j', ∃ v, job_id j' = Some v ∧ v ≠ JStr id) pre ∧
    job_id j = Some (JStr id).
Proof.
  induction 1 as [|j l [v Hv] _ IH]; [by left|].
  destruct (py_eq_str (VJson v) id) eqn:Heq.
  - apply py_eq_str_true in Heq as ->. right. by exists [], j, l.
  - apply py_eq_str_false in Heq.
    destruct IH as [Hnone | (pre & j' & post & -> & Hpre & Hj')].
    + left. constructor; eauto.
    + right. exists (j :: pre), j', post. repeat split; [|done].
      constructor; eauto.
Qed.

Lemma get_job_scan `{Env} id printer kw t t' l :
  run (list_jobs printer kw) t = (Ok (VJson (JList l)), t') →
  run (get_job id printer kw) t = (scan_jobs id (VJson <$> l), t').
Proof. intros Hl. by rewrite run_get_job, Hl. Qed.

(** ** Success: the decoded body *)

Section success.
Context `{Env}.
Variable r : Response.
Variable t : trace.
Hypothesis Hok : status_code r = codes_ok.

Lemma respond_success : respond r = VJson <$> resp_json r.
Proof. unfold respond. by destruct (decide (status_code r = codes_ok)). Qed.

Lemma get_printer_success id kw req :
  get_printer_request id kw = Ok req → http t req = Ok r →
  run (get_printer id kw) t = (VJson <$> resp_json r, (t ++ [req])%list).
Proof.
  intros Hreq Hr. by rewrite run_get_printer, Hreq, Hr, bind_Ok, respond_success.
Qed.

Lemma delete_job_success id kw req :
  delete_job_request id kw = Ok req → http t req = Ok r →
  run (delete_job id kw) t = (VJson <$> resp_json r, (t ++ [req])%list).
Proof.
  intros Hreq Hr. by rewrite run_delete_job, Hreq, Hr, bind_Ok, respond_success.
Qed.

Lemma list_printers_success kw req :
  list_printers_request kw = Ok req → http t req = Ok r →
  run (list_printers kw) t = (VJson <$> resp_json r, (t ++ [req])%list).
Proof.
  intros Hreq Hr.
  by rewrite run_list_printers, Hreq, Hr, bind_Ok, respond_success.
Qed.

Lemma submit_job_success printer c title ticket tags ct kw req :
  submit_request printer c title ticket tags ct kw = Ok req →
  http t req = Ok r →
  run (submit_job printer c title ticket tags ct kw) t
    = (VJson <$> resp_json r, (t ++ [req])%list).
Proof.
  intros Hreq Hr.
  by rewrite run_submit_job, Hreq, Hr, bind_Ok, respond_success.
Qed.

(** Both branches of line 83 decode the body, whatever the declared
    content type. *)
Lemma list_jobs_success printer kw req :
  list_jobs_request printer kw = Ok req → http t req = Ok r →
  run (list_jobs printer kw) t =
    (body ← json_loads (content r); py_getitem (VJson body) "jobs",
     (t ++ [req])%list).
Proof.
  intros Hreq Hr. rewrite run_list_jobs, Hreq, Hr, bind_Ok.
  by destruct (decide (status_code r = codes_ok)).
Qed.

Lemma get_job_success id printer kw req :
  list_jobs_request printer kw = Ok req → http t req = Ok r →
  run (get_job id printer kw) t =
    (body ← json_loads (content r);
     jobs ← py_getitem (VJson body) "jobs";
     items ← py_iter jobs;
     scan_jobs id items,
     (t ++ [req])%list).
Proof.
  intros Hreq Hr. rewrite run_get_job, (list_jobs_success _ _ _ Hreq Hr).
  destruct (json_loads (content r)) as [body|e]; [|done].
  rewrite !bind_Ok.
  destruct (py_getitem (VJson body) "jobs") as [jobs|e]; [|done].
  by rewrite bind_Ok.
Qed.


End success.




(** ** [basename] *)


Lemma rfind_from_absent c s i last :
  occurs c s = false → rfind_from c s i last = last.
Proof.
  revert i last. induction s as [|a rest IH]; simpl; intros i last Hs; [done|].
  apply orb_false_iff in Hs as [Ha Hrest].
  apply bool_decide_eq_false in Ha.
  rewrite IH by done. by destruct (decide (a = c)).
Qed.

Lemma rfind_from_last c dir f i last :
  occurs c f = false →
  rfind_from c (dir +:+ String c f) i last = i + Z.of_nat (String.length dir).
Proof.
  intros Hf. revert i last. induction dir as [|a dir IH]; simpl; intros i last.
  - rewrite rfind_from_absent by done.
    destruct (decide (c = c)); [lia | done].
  - rewrite IH. lia.
Qed.

Lemma rfind_from_spec c s i last :
  (occurs c s = false ∧ rfind_from c s i last = last) ∨
  (∃ dir f, s = dir +:+ String c f ∧ occurs c f = false ∧
            rfind_from c s i last = i + Z.of_nat (String.length dir)).
Proof.
  revert i last. induction s as [|a rest IH]; simpl; intros i last.
  - by left.
  - destruct (IH (i + 1) (if decide (a = c) then i else last))
      as [[Habs Hres] | (dir & f & -> & Hf & Hres)].
    + destruct (decide (a = c)) as [->|Hne].
      * right. exists "", rest. simpl. repeat split; [done|]. lia.
      * left. rewrite Habs, orb_false_r. split; [|done].
        by apply bool_decide_eq_false.
    + right. exists (String a dir), f. simpl. repeat split; [done|]. lia.
Qed.

Lemma string_drop_app dir c f :
  string_drop (S (String.length dir)) (dir +:+ String c f) = f.
Proof. induction dir as [|a dir IH]; [done | apply IH]. Qed.

(** A path without separator is its own final component. *)
Lemma basename_no_sep p : occurs sep p = false → basename p = p.
Proof.
  intros Hp. unfold basename, rfind. by rewrite rfind_from_absent.
Qed.

(** The final component of [dir/f] is [f]. *)
Lemma basename_final dir f :
  occurs sep f = false → basename (dir +:+ String sep f) = f.
Proof.
  intros Hf. unfold basename, rfind. rewrite rfind_from_last by done.
  replace (Z.to_nat (0 + Z.of_nat (String.length dir) + 1))
    with (S (String.length dir)) by lia.
  apply string_drop_app.
Qed.

(** Every path splits into a directory part, empty or ending with the
    separator, and its basename, which holds no separator. *)
Lemma basename_split p :
  occurs sep (basename p) = false ∧
  ((p = basename p) ∨ (∃ dir, p = dir +:+ String sep (basename p))).
Proof.
  destruct (rfind_from_spec sep p 0 (-1))
    as [[Habs _] | (dir & f & -> & Hf & _)].
  - rewrite basename_no_sep by done. split; [done | by left].
  - rewrite basename_final by done. split; [done | right; eauto].
Qed.

(** ** The submission request *)

Section submit.
Context `{Env}.
Implicit Types (printer name : string) (title ct : option string).
Implicit Types (ticket : option json) (tags : option (list string)).

Lemma submit_data_title printer name title ticket tags ct :
  submit_data printer name title ticket tags ct !! "title" =
    Some (FStr (default name title)).
Proof.
  unfold submit_data. destruct title, tags as [[|]|]; by simplify_map_eq.
Qed.

Lemma submit_data_ticket printer name title ticket tags ct :
  submit_data printer name title ticket tags ct !! "ticket" =
    Some (FStr (json_dumps (default (JList [JDict []]) ticket))).
Proof.
  unfold submit_data. destruct ticket, tags as [[|]|]; by simplify_map_eq.
Qed.

Lemma submit_data_contentType printer name title ticket tags ct :
  submit_data printer name title ticket tags ct !! "contentType" =
    Some (form_of_option (py_or ct (guess_type name))).
Proof.
  unfold submit_data. destruct tags as [[|]|]; by simplify_map_eq.
Qed.

Lemma submit_data_content printer name title ticket tags ct :
  submit_data printer name title ticket tags ct !! "content" = None.
Proof.
  unfold submit_data. destruct tags as [[|]|]; by simplify_map_eq.
Qed.

Lemma submit_data_tag printer name title ticket tags ct :
  submit_data printer name title ticket tags ct !! "tag" =
    match tags with
    | Some (t :: ts) => Some (FList (t :: ts))
    | _ => None
    end.
Proof.
  unfold submit_data. destruct tags as [[|]|]; by simplify_map_eq.
Qed.

Lemma submit_data_printerid printer name title ticket tags ct :
  submit_data printer name title ticket tags ct !! "printerid" =
    Some (FStr printer).
Proof.
  unfold submit_data. destruct tags as [[|]|]; by simplify_map_eq.
Qed.

Lemma submit_data_dom printer name title ticket tags ct :
  dom (submit_data printer name title ticket tags ct) =
    ({[ "printerid"; "title"; "contentType"; "ticket" ]} : gset string) ∪
    match tags with
    | Some (_ :: _) => {[ "tag" ]}
    | _ => ∅
    end.
Proof.
  unfold submit_data. destruct tags as [[|]|];
    rewrite ?dom_insert_L, dom_empty_L; set_solver.
Qed.


(** The multipart branch: the call goes through unless [kwargs] brings
    its own [url], [data] or [files]. *)
Lemma submit_request_multipart printer c title ticket tags ct kw name body :
  normalise_content c ct = Ok (name, body) →
  ct ≠ Some "url" ∨ (∃ b, body = PBytes b) →
  kw_url kw = None → kw_data kw = None → kw_files kw = None →
  submit_request printer c title ticket tags ct kw =
    Ok (mkRequest POST (CLOUDPRINT_URL +:+ "/submit") (kw_params kw)
          (Some (submit_data printer name title ticket tags ct))
          (Some {[ "content" := (name, body) ]}) (kw_options kw)).
Proof.
  intros Hn Hcase Hu Hd Hf. unfold submit_request. rewrite Hn, bind_Ok.
  assert (Hm : multipart_request printer name title ticket tags ct kw body =
    Ok (mkRequest POST (CLOUDPRINT_URL +:+ "/submit") (kw_params kw)
          (Some (submit_data printer name title ticket tags ct))
          (Some {[ "content" := (name, body) ]}) (kw_options kw))).
  { unfold multipart_request, requests_call. by rewrite Hu, Hd, Hf. }
  destruct (decide (ct = Some "url")) as [->|Hne], body as [b|s];
    try done.
  by destruct Hcase as [? | [b [=]]].
Qed.

Lemma submit_request_inv printer c title ticket tags ct kw req :
  submit_request printer c title ticket tags ct kw = Ok req →
  ∃ name body,
    normalise_content c ct = Ok (name, body) ∧
    kw_url kw = None ∧ kw_data kw = None ∧
    req_method req = POST ∧
    req_url req = CLOUDPRINT_URL +:+ "/submit" ∧
    req_params req = kw_params kw ∧
    req_options req = kw_options kw ∧
    ((∃ s, body = PStr s ∧ ct = Some "url" ∧
           req_data req =
             Some (<[ "content" := FStr s ]>
                     (submit_data printer name title ticket tags ct)) ∧
           req_files req = kw_files kw) ∨
     ((ct ≠ Some "url" ∨ ∃ b, body = PBytes b) ∧
      kw_files kw = None ∧
      req_data req = Some (submit_data printer name title ticket tags ct) ∧
      req_files req = Some {[ "content" := (name, body) ]})).
Proof.
  unfold submit_request. intros Hreq.
  apply bind_Ok_inv in Hreq as ([name body] & Hn & Hreq).
  exists name, body. split; [done|].
  unfold form_request, multipart_request, requests_call in Hreq.
  destruct kw as [u p d f o]; simpl in *.
  destruct u; [by destruct (decide (ct = Some "url")), body|].
  destruct (decide (ct = Some "url")) as [->|Hne], body as [b|s], d, f;
    simpl in Hreq; try discriminate; injection Hreq as <-; simpl;
    repeat (split; [done|]); eauto 10.
Qed.

(** Apart from [content], the form fields are those of [submit_data]. *)
Lemma form_field_submit printer c title ticket tags ct kw req key :
  submit_request printer c title ticket tags ct kw = Ok req →
  key ≠ "content" →
  ∃ name body,
    normalise_content c ct = Ok (name, body) ∧
    req_data req ≠ None ∧
    form_field req key = submit_data printer name title ticket tags ct !! key ∧
    sent_field req key =
      encode_form (submit_data printer name title ticket tags ct) !! key.
Proof.
  intros Hreq Hkey.
  destruct (submit_request_inv _ _ _ _ _ _ _ _ Hreq)
    as (name & body & Hn & _ & _ & _ & _ & _ & _ &
        [(s & -> & -> & Hd & _) | (_ & _ & Hd & _)]);
    eexists _, _; (split; [done|]);
    unfold form_field, sent_field, encode_form; rewrite Hd;
    (split; [done|]); simpl;
    rewrite ?lookup_omap; by simplify_map_eq.
Qed.

(** The name lines 134-142 derive from the content. *)
Lemma normalise_content_name c ct name body :
  normalise_content c ct = Ok (name, body) →
  name = match c with
         | CPair n _ => n
         | CStr s => if decide (ct = Some "url") then s else basename s
         end.
Proof.
  destruct c as [n stream | s]; simpl.
  - by intros [= <- _].
  - destruct (decide (ct = Some "url")); [by intros [= <- _]|].
    destruct (read_file s); [by intros [= <- _] | done].
Qed.


(** Running [submit_job] hands the request to the transport, once. *)
Lemma submit_job_sends printer c title ticket tags ct kw req t :
  submit_request printer c title ticket tags ct kw = Ok req →
  run (submit_job printer c title ticket tags ct kw) t =
    (http t req ≫= respond, (t ++ [req])%list).
Proof. intros Hreq. by rewrite run_submit_job, Hreq. Qed.

End submit.







(** C4: with no ticket, the request [submit_job] sends has as ['ticket']
    form field the JSON text of the one-element list holding an empty
    object, [[{}]]. *)
Theorem default_ticket `{Env} printer c title tags ct kw req t :
  submit_request printer c title None tags ct kw = Ok req →
  run (submit_job printer c title None tags ct kw) t
    = (http t req ≫= respond, (t ++ [req])%list) ∧
  form_field req "ticket" = Some (FStr (json_dumps (JList [JDict []]))) ∧
  sent_field req "ticket" = Some [json_dumps (JList [JDict []])].
Proof.
  intros Hreq. split; [by apply submit_job_sends|].
  destruct (form_field_submit _ _ _ _ _ _ _ _ "ticket" Hreq)
    as (name & body & _ & _ & -> & ->); [done|].
  unfold encode_form. rewrite lookup_omap, submit_data_ticket. done.
Qed.

Lemma default_ticket_witness :
  ∃ req,
    run (@submit_job env_200 "printer-1" (CStr "/tmp/docs/report.pdf")
           None None None None no_kwargs) []
      = (Ok (VJson jobs_body), [req]) ∧
    form_field req "ticket" = Some (FStr "[{}]") ∧
    sent_field req "ticket" = Some ["[{}]"].
Proof.
  eexists.
  apply (@default_ticket env_200 "printer-1" (CStr "/tmp/docs/report.pdf")
           None None None no_kwargs _ []).
  reflexivity.
Defined.

(** C5: a path (a string not marked as URL) is opened and read whole; the
    bytes become the file part of the request [submit_job] sends, and the
    name is the basename of the path, its final component. *)
Theorem path_is_read `{Env} printer path title ticket tags ct kw bytes t :
  ct ≠ Some "url" →
  read_file path = Some bytes →
  kw_url kw = None → kw_data kw = None → kw_files kw = None →
  normalise_content (CStr path) ct = Ok (basename path, PBytes bytes) ∧
  (∃ req,
     submit_request printer (CStr path) title ticket tags ct kw = Ok req ∧
     run (submit_job printer (CStr path) title ticket tags ct kw) t
       = (http t req ≫= respond, (t ++ [req])%list) ∧
     file_part req "content" = Some (basename path, PBytes bytes)) ∧
  occurs sep (basename path) = false ∧
  (path = basename path ∨ ∃ dir, path = dir +:+ String sep (basename path)).
Proof.
  intros Hct Hfile Hu Hd Hf.
  assert (Hn : normalise_content (CStr path) ct
               = Ok (basename path, PBytes bytes)).
  { simpl. destruct (decide (ct = Some "url")); [done|]. by rewrite Hfile. }
  split; [done|]. split; [|apply basename_split].
  eexists. split; [|split].
  - apply (submit_request_multipart _ _ _ _ _ _ _ _ _ Hn); [by left|done..].
  - apply submit_job_sends.
    apply (submit_request_multipart _ _ _ _ _ _ _ _ _ Hn); [by left|done..].
  - unfold file_part. simpl. by simplify_map_eq.
Qed.

Lemma path_is_read_witness :
  @normalise_content env_200 (CStr "/tmp/docs/report.pdf") None
    = Ok ("report.pdf", PBytes pdf_bytes) ∧
  (∃ req,
     @submit_request env_200 "printer-1" (CStr "/tmp/docs/report.pdf")
       None None None None no_kwargs = Ok req ∧
     run (@submit_job env_200 "printer-1" (CStr "/tmp/docs/report.pdf")
            None None None None no_kwargs) []
       = (Ok (VJson jobs_body), [req]) ∧
     file_part req "content" = Some ("report.pdf", PBytes pdf_bytes)) ∧
  occurs sep "report.pdf" = false ∧
  ("/tmp/docs/report.pdf" = "report.pdf" ∨
   ∃ dir, "/tmp/docs/report.pdf" = dir +:+ String sep "report.pdf").
Proof.
  apply (@path_is_read env_200 "printer-1" "/tmp/docs/report.pdf" None None
           None None no_kwargs pdf_bytes []).
  - discriminate.
  - reflexivity.
  - reflexivity.
  - reflexivity.
  - reflexivity.
Defined.

(** C8: with no title, the request [submit_job] sends has as ['title']
    form field the derived name: the pair's name, the URL string, or the
    basename of the path. *)
Theorem default_title `{Env} printer c ticket tags ct kw req t :
  submit_request printer c None ticket tags ct kw = Ok req →
  run (submit_job printer c None ticket tags ct kw) t
    = (http t req ≫= respond, (t ++ [req])%list) ∧
  form_field req "title" =
    Some (FStr match c with
               | CPair n _ => n
               | CStr s => if decide (ct = Some "url") then s else basename s
               end) ∧
  sent_field req "title" =
    Some [match c with
          | CPair n _ => n
          | CStr s => if decide (ct = Some "url") then s else basename s
          end].
Proof.
  intros Hreq. split; [by apply submit_job_sends|].
  destruct (form_field_submit _ _ _ _ _ _ _ _ "title" Hreq)
    as (name & body & Hn & _ & -> & ->); [done|].
  unfold encode_form. rewrite lookup_omap, submit_data_title. simpl.
  by rewrite (normalise_content_name _ _ _ _ Hn).
Qed.

Lemma default_title_witness :
  (∃ req,
     run (@submit_job env_200 "printer-1" (CStr "/tmp/docs/report.pdf")
            None None None None no_kwargs) []
       = (Ok (VJson jobs_body), [req]) ∧
     form_field req "title" = Some (FStr "report.pdf") ∧
     sent_field req "title" = Some ["report.pdf"]) ∧
  (∃ req,
     run (@submit_job env_200 "printer-1" (CStr "http://example.com/a.pdf")
            None None None (Some "url") no_kwargs) []
       = (Ok (VJson jobs_body), [req]) ∧
     form_field req "title" = Some (FStr "http://example.com/a.pdf") ∧
     sent_field req "title" = Some ["http://example.com/a.pdf"]) ∧
  (∃ req,
     run (@submit_job env_200 "printer-1"
            (CPair "notes.txt" (PBytes [x68; x69])) None None None None
            no_kwargs) []
       = (Ok (VJson jobs_body), [req]) ∧
     form_field req "title" = Some (FStr "notes.txt") ∧
     sent_field req "title" = Some ["notes.txt"]).
Proof.
  split; [|split].
  - eexists.
    apply (@default_title env_200 "printer-1" (CStr "/tmp/docs/report.pdf")
             None None None no_kwargs _ []).
    reflexivity.
  - eexists.
    apply (@default_title env_200 "printer-1"
             (CStr "http://example.com/a.pdf") None None (Some "url")
             no_kwargs _ []).
    reflexivity.
  - eexists.
    apply (@default_title env_200 "printer-1"
             (CPair "notes.txt" (PBytes [x68; x69])) None None None
             no_kwargs _ []).
    reflexivity.
Defined.

(** C6 (as amended): in the request [submit_job] sends, the
    ['contentType'] field is the caller's [content_type] when it is given
    and not the empty string; when it is [None] or empty the field is the
    type guessed from the derived name; and when that guess yields
    nothing the dict holds [None] under ['contentType'] and the field is
    absent from the form data sent. *)
Theorem content_type_field `{Env} printer c title ticket tags ct kw req t :
  submit_request printer c title ticket tags ct kw = Ok req →
  run (submit_job printer c title ticket tags ct kw) t
    = (http t req ≫= respond, (t ++ [req])%list) ∧
  ∃ name body,
    normalise_content c ct = Ok (name, body) ∧
    (∀ s, ct = Some s → s ≠ "" →
       form_field req "contentType" = Some (FStr s) ∧
       sent_field req "contentType" = Some [s]) ∧
    (ct = None ∨ ct = Some "" →
     ∀ m, guess_type name = Some m →
       form_field req "contentType" = Some (FStr m) ∧
       sent_field req "contentType" = Some [m]) ∧
    (ct = None ∨ ct = Some "" →
     guess_type name = None →
       form_field req "contentType" = Some FNone ∧
       sent_field req "contentType" = None).
Proof.
  intros Hreq. split; [by apply submit_job_sends|].
  destruct (form_field_submit _ _ _ _ _ _ _ _ "contentType" Hreq)
    as (name & body & Hn & _ & -> & ->); [done|].
  exists name, body. split; [done|].
  unfold encode_form. rewrite lookup_omap, submit_data_contentType.
  split; [|split].
  - intros s -> Hs. simpl. by destruct (decide (s = "")).
  - intros [-> | ->] m Hm; simpl; by rewrite Hm.
  - intros [-> | ->] Hm; simpl; by rewrite Hm.
Qed.

Lemma content_type_field_witness :
  (∃ req,
     run (@submit_job env_200 "printer-1"
            (CPair "notes.txt" (PBytes [x68; x69])) None None None
            (Some "text/plain") no_kwargs) []
       = (Ok (VJson jobs_body), [req]) ∧
     form_field req "contentType" = Some (FStr "text/plain") ∧
     sent_field req "contentType" = Some ["text/plain"]) ∧
  (∃ req,
     run (@submit_job env_200 "printer-1" (CStr "/tmp/docs/report.pdf")
            None None None None no_kwargs) []
       = (Ok (VJson jobs_body), [req]) ∧
     form_field req "contentType" = Some (FStr "application/pdf") ∧
     sent_field req "contentType" = Some ["application/pdf"]) ∧
  (∃ req,
     run (@submit_job env_200 "printer-1"
            (CPair "notes.txt" (PBytes [x68; x69])) None None None None
            no_kwargs) []
       = (Ok (VJson jobs_body), [req]) ∧
     form_field req "contentType" = Some FNone ∧
     sent_field req "contentType" = None).
Proof.
  split; [|split].
  - eexists.
    destruct (@content_type_field env_200 "printer-1"
                (CPair "notes.txt" (PBytes [x68; x69])) None None None
                (Some "text/plain") no_kwargs _ [] eq_refl)
      as (Hrun & name & body & _ & Hgiven & _).
    split; [exact Hrun|].
    apply (Hgiven "text/plain"); [reflexivity | discriminate].
  - eexists.
    destruct (@content_type_field env_200 "printer-1"
                (CStr "/tmp/docs/report.pdf") None None None None no_kwargs
                _ [] eq_refl)
      as (Hrun & name & body & Hn & _ & Hguess & _).
    split; [exact Hrun|].
    injection Hn as <- _.
    apply Hguess; [by left | reflexivity].
  - eexists.
    destruct (@content_type_field env_200 "printer-1"
                (CPair "notes.txt" (PBytes [x68; x69])) None None None None
                no_kwargs _ [] eq_refl)
      as (Hrun & name & body & Hn & _ & _ & Habsent).
    split; [exact Hrun|].
    injection Hn as <- _.
    apply Habsent; [by left | reflexivity].
Defined.

(** C6 fails for the empty string: it is supplied by the caller, and
    [submit_job] sends the guessed type in its place. *)
Lemma empty_content_type_counterexample :
  ∃ req,
    run (@submit_job env_200 "printer-1" (CStr "/tmp/docs/report.pdf")
           None None None (Some "") no_kwargs) []
      = (Ok (VJson jobs_body), [req]) ∧
    form_field req "contentType" = Some (FStr "application/pdf") ∧
    sent_field req "contentType" = Some ["application/pdf"] ∧
    form_field req "contentType" ≠ Some (FStr "") ∧
    sent_field req "contentType" ≠ Some [""].
Proof.
  eexists. split; [reflexivity|].
  split; [reflexivity|]. split; [reflexivity|].
  split; vm_compute; discriminate.
Qed.

(** ** Looking a job up in the listing *)

(** C7: over a successful listing whose jobs all carry an ['id'],
    [get_job] returns an entry of the listing whose id is the one asked
    for, and returns [None] when no entry has that id. *)
Theorem get_job_finds `{Env} id printer kw (l : list json) t t' :
  run (list_jobs printer kw) t = (Ok (VJson (JList l)), t') →
  Forall (λ j, is_Some (job_id j)) l →
  (∃ j, run (get_job id printer kw) t = (Ok (VJson j), t') ∧
        j ∈ l ∧ job_id j = Some (JStr id)) ∨
  (run (get_job id printer kw) t = (Ok VNone, t') ∧
   ∀ j, j ∈ l → job_id j ≠ Some (JStr id)).
Proof.
  intros Hl Hwf. rewrite (get_job_scan _ _ _ _ _ _ Hl).
  destruct (jobs_split id l Hwf)
    as [Hnone | (pre & j & post & -> & Hpre & Hj)].
  - right. split; [by rewrite scan_jobs_none|].
    intros j Hin Hj. rewrite Forall_forall in Hnone.
    destruct (Hnone j Hin) as (v & Hv & Hne). congruence.
  - left. exists j. split; [by rewrite scan_jobs_first|].
    split; [|done]. set_solver.
Qed.

Lemma get_job_finds_witness :
  ∃ t',
    (∃ j, run (@get_job env_200 "b" None no_kwargs) [] = (Ok (VJson j), t') ∧
          j ∈ [job_a; job_b; job_a'] ∧ job_id j = Some (JStr "b")) ∨
    (run (@get_job env_200 "b" None no_kwargs) [] = (Ok VNone, t') ∧
     ∀ j, j ∈ [job_a; job_b; job_a'] → job_id j ≠ Some (JStr "b")).
Proof.
  eexists.
  apply (@get_job_finds env_200 "b" None no_kwargs [job_a; job_b; job_a'] []).
  - reflexivity.
  - repeat constructor; eexists; reflexivity.
Defined.

(** C10: when several jobs of the listing have the id asked for,
    [get_job] returns the first of them in list order. *)
Theorem get_job_first `{Env} id printer kw (pre post : list json) (j : json)
    t t' :
  run (list_jobs printer kw) t
    = (Ok (VJson (JList (pre ++ j :: post)%list)), t') →
  Forall (λ j', ∃ v, job_id j' = Some v ∧ v ≠ JStr id) pre →
  job_id j = Some (JStr id) →
  run (get_job id printer kw) t = (Ok (VJson j), t').
Proof.
  intros Hl Hpre Hj. rewrite (get_job_scan _ _ _ _ _ _ Hl).
  by rewrite scan_jobs_first.
Qed.

Lemma get_job_first_witness :
  ∃ t', run (@get_job env_dup "a" None no_kwargs) [] = (Ok (VJson job_a), t').
Proof.
  eexists.
  apply (@get_job_first env_dup "a" None no_kwargs [job_b] [job_a'] job_a []).
  - reflexivity.
  - repeat constructor. exists (JStr "b"). split; [reflexivity | discriminate].
  - reflexivity.
Defined.

(** ** Further properties of the operations *)

(** X4: on a decoded body [list_jobs] returns the ['jobs'] entry; a dict
    without that key raises [KeyError], and a body that is not a dict
    raises [TypeError]. *)
Theorem list_jobs_unwraps `{Env} (r : Response) body printer kw req t :
  status_code r = codes_ok →
  list_jobs_request printer kw = Ok req →
  http t req = Ok r →
  json_loads (content r) = Ok body →
  run (list_jobs printer kw) t =
    (match body with
     | JDict kvs =>
         match dict_get "jobs" kvs with
         | Some jobs => Ok (VJson jobs)
         | None => Raise (KeyError "jobs")
         end
     | _ => Raise TypeError
     end, (t ++ [req])%list).
Proof.
  intros Hok Hreq Hr Hbody.
  rewrite (list_jobs_success r t Hok _ _ _ Hreq Hr), Hbody, bind_Ok.
  by destruct body.
Qed.

Lemma list_jobs_unwraps_witness :
  (∃ req, run (@list_jobs env_no_jobs (Some "printer-1") no_kwargs) []
            = (Raise (KeyError "jobs"), [req])) ∧
  (∃ req, run (@list_jobs env_200 None no_kwargs) []
            = (Ok (VJson (JList [job_a; job_b; job_a'])), [req])).
Proof.
  split; eexists.
  - apply (@list_jobs_unwraps env_no_jobs ok_response
             (JDict [("success", JBool false)]) (Some "printer-1") no_kwargs
             _ []); reflexivity.
  - apply (@list_jobs_unwraps env_200 ok_response jobs_body None no_kwargs
             _ []); reflexivity.
Defined.

(** X5: an entry of the listing that has no ['id'] stops the search when
    the loop reaches it, whatever follows: a dict raises [KeyError], any
    other entry [TypeError]. *)
Theorem get_job_malformed_entry `{Env} id printer kw
    (pre post : list json) (bad : json) t t' :
  run (list_jobs printer kw) t
    = (Ok (VJson (JList (pre ++ bad :: post)%list)), t') →
  Forall (λ j', ∃ v, job_id j' = Some v ∧ v ≠ JStr id) pre →
  job_id bad = None →
  run (get_job id printer kw) t =
    (match bad with
     | JDict _ => Raise (KeyError "id")
     | _ => Raise TypeError
     end, t').
Proof.
  intros Hl Hpre Hbad. rewrite (get_job_scan _ _ _ _ _ _ Hl).
  by rewrite scan_jobs_stuck.
Qed.

Lemma get_job_malformed_entry_witness :
  ∃ t', run (@get_job env_bad_entry "a" None no_kwargs) []
          = (Raise (KeyError "id"), t').
Proof.
  eexists.
  apply (@get_job_malformed_entry env_bad_entry "a" None no_kwargs [job_b]
           [job_a] job_without_id []).
  - reflexivity.
  - repeat constructor. exists (JStr "b"). split; [reflexivity | discriminate].
  - reflexivity.
Defined.

(** X6: when the ['jobs'] entry is not a list, [get_job] returns [None]
    for an empty dict or an empty string and raises [TypeError] for
    anything else. *)
Theorem get_job_jobs_not_a_list `{Env} id printer kw (jobs : json) t t' :
  run (list_jobs printer kw) t = (Ok (VJson jobs), t') →
  (∀ l, jobs ≠ JList l) →
  run (get_job id printer kw) t =
    (match jobs with
     | JDict [] | JStr EmptyString => Ok VNone
     | _ => Raise TypeError
     end, t').
Proof.
  intros Hl Hnl. rewrite run_get_job, Hl.
  destruct jobs as [| | | |s|l|kvs]; try done.
  - by destruct s.
  - by destruct (Hnl l).
  - by destruct kvs as [|[k v] kvs].
Qed.

Lemma get_job_jobs_not_a_list_witness :
  ∃ t', run (@get_job env_jobs_dict "a" None no_kwargs) []
          = (Raise TypeError, t').
Proof.
  eexists.
  apply (@get_job_jobs_not_a_list env_jobs_dict "a" None no_kwargs
           (JDict [("a", job_a)]) []).
  - reflexivity.
  - discriminate.
Defined.

(** X13: whatever the listing holds, a value returned by [get_job] is
    trustworthy: [None] means every entry was looked at and carries
    another id; an entry means it has the id asked for and every entry
    before it carries another id. *)
Theorem get_job_result_sound `{Env} id printer kw (l : list json) v t t' t'' :
  run (list_jobs printer kw) t = (Ok (VJson (JList l)), t') →
  run (get_job id printer kw) t = (Ok v, t'') →
  (v = VNone ∧ Forall (λ j, ∃ w, job_id j = Some w ∧ w ≠ JStr id) l) ∨
  (∃ pre j post,
     l = (pre ++ j :: post)%list ∧ v = VJson j ∧
     job_id j = Some (JStr id) ∧
     Forall (λ j', ∃ w, job_id j' = Some w ∧ w ≠ JStr id) pre).
Proof.
  intros Hl Hget. rewrite (get_job_scan _ _ _ _ _ _ Hl) in Hget.
  injection Hget as Hscan _. by apply scan_jobs_inv.
Qed.

Lemma get_job_result_sound_witness :
  (VJson job_a = VNone ∧
   Forall (λ j, ∃ w, job_id j = Some w ∧ w ≠ JStr "a") [job_b; job_a; job_a'])
  ∨
  (∃ pre j post,
     [job_b; job_a; job_a'] = (pre ++ j :: post)%list ∧
     VJson job_a = VJson j ∧
     job_id j = Some (JStr "a") ∧
     Forall (λ j', ∃ w, job_id j' = Some w ∧ w ≠ JStr "a") pre).
Proof.
  eapply (@get_job_result_sound env_dup "a" None no_kwargs
            [job_b; job_a; job_a'] (VJson job_a) []); reflexivity.
Defined.

(** X2: an error raised by the transport is not caught: every operation
    raises it, [get_job] through [list_jobs]. *)
Theorem transport_error_propagates `{Env} (e : exn) (t : trace) :
  (∀ id kw req,
     get_printer_request id kw = Ok req → http t req = Raise e →
     run (get_printer id kw) t = (Raise e, (t ++ [req])%list)) ∧
  (∀ id kw req,
     delete_job_request id kw = Ok req → http t req = Raise e →
     run (delete_job id kw) t = (Raise e, (t ++ [req])%list)) ∧
  (∀ kw req,
     list_printers_request kw = Ok req → http t req = Raise e →
     run (list_printers kw) t = (Raise e, (t ++ [req])%list)) ∧
  (∀ printer kw req,
     list_jobs_request printer kw = Ok req → http t req = Raise e →
     run (list_jobs printer kw) t = (Raise e, (t ++ [req])%list) ∧
     ∀ id, run (get_job id printer kw) t = (Raise e, (t ++ [req])%list)) ∧
  (∀ printer c title ticket tags ct kw req,
     submit_request printer c title ticket tags ct kw = Ok req →
     http t req = Raise e →
     run (submit_job printer c title ticket tags ct kw) t
       = (Raise e, (t ++ [req])%list)).
Proof.
  split; [|split; [|split; [|split]]].
  - intros id kw req Hreq Hr. by rewrite run_get_printer, Hreq, Hr.
  - intros id kw req Hreq Hr. by rewrite run_delete_job, Hreq, Hr.
  - intros kw req Hreq Hr. by rewrite run_list_printers, Hreq, Hr.
  - intros printer kw req Hreq Hr.
    assert (Hl : run (list_jobs printer kw) t = (Raise e, (t ++ [req])%list))
      by (by rewrite run_list_jobs, Hreq, Hr).
    split; [done|]. intros id. by rewrite run_get_job, Hl.
  - intros printer c title ticket tags ct kw req Hreq Hr.
    by rewrite run_submit_job, Hreq, Hr.
Qed.

Lemma transport_error_propagates_witness :
  (∃ req, run (@get_printer env_down "printer-1" no_kwargs) []
            = (Raise ConnectionError, [req])) ∧
  (∃ req, run (@delete_job env_down "job-1" no_kwargs) []
            = (Raise ConnectionError, [req])) ∧
  (∃ req, run (@list_printers env_down no_kwargs) []
            = (Raise ConnectionError, [req])) ∧
  (∃ req, run (@list_jobs env_down None no_kwargs) []
            = (Raise ConnectionError, [req])) ∧
  (∃ req, run (@get_job env_down "job-1" None no_kwargs) []
            = (Raise ConnectionError, [req])) ∧
  (∃ req, run (@submit_job env_down "printer-1"
                 (CPair "a.txt" (PBytes [x68; x69])) None None None None
                 no_kwargs) []
            = (Raise ConnectionError, [req])).
Proof.
  destruct (@transport_error_propagates env_down ConnectionError [])
    as (Hgp & Hdj & Hlp & Hlj & Hsj).
  split; [eexists; apply Hgp; reflexivity|].
  split; [eexists; apply Hdj; reflexivity|].
  split; [eexists; apply Hlp; reflexivity|].
  split; [eexists; apply (Hlj None no_kwargs); reflexivity|].
  split; [eexists; apply (Hlj None no_kwargs); reflexivity|].
  eexists; eapply Hsj; reflexivity.
Defined.

(** X3: when a response has status [requests.codes.ok] and its body does
    not decode, no operation falls back to returning the response:
    [list_jobs] and [get_job] raise the decoder's error, and so do the
    four operations that call [r.json()], unless the response has no
    [json] attribute, where they raise [AttributeError]. *)
Theorem decode_error_propagates `{Env} (r : Response) (e : exn) (t : trace) :
  status_code r = codes_ok →
  json_loads (content r) = Raise e →
  (∀ id kw req,
     get_printer_request id kw = Ok req → http t req = Ok r →
     run (get_printer id kw) t =
       (Raise (if has_json r then e else AttributeError), (t ++ [req])%list)) ∧
  (∀ id kw req,
     delete_job_request id kw = Ok req → http t req = Ok r →
     run (delete_job id kw) t =
       (Raise (if has_json r then e else AttributeError), (t ++ [req])%list)) ∧
  (∀ kw req,
     list_printers_request kw = Ok req → http t req = Ok r →
     run (list_printers kw) t =
       (Raise (if has_json r then e else AttributeError), (t ++ [req])%list)) ∧
  (∀ printer kw req,
     list_jobs_request printer kw = Ok req → http t req = Ok r →
     run (list_jobs printer kw) t = (Raise e, (t ++ [req])%list) ∧
     ∀ id, run (get_job id printer kw) t = (Raise e, (t ++ [req])%list)) ∧
  (∀ printer c title ticket tags ct kw req,
     submit_request printer c title ticket tags ct kw = Ok req →
     http t req = Ok r →
     run (submit_job printer c title ticket tags ct kw) t =
       (Raise (if has_json r then e else AttributeError), (t ++ [req])%list)).
Proof.
  intros Hok He.
  assert (Hjson : VJson <$> resp_json r =
                  Raise (if has_json r then e else AttributeError)).
  { unfold resp_json. destruct (has_json r); [by rewrite He | done]. }
  split; [|split; [|split; [|split]]].
  - intros id kw req Hreq Hr.
    by rewrite (get_printer_success r t Hok _ _ _ Hreq Hr), Hjson.
  - intros id kw req Hreq Hr.
    by rewrite (delete_job_success r t Hok _ _ _ Hreq Hr), Hjson.
  - intros kw req Hreq Hr.
    by rewrite (list_printers_success r t Hok _ _ Hreq Hr), Hjson.
  - intros printer kw req Hreq Hr. split; [|intros id].
    + by rewrite (list_jobs_success r t Hok _ _ _ Hreq Hr), He.
    + by rewrite (get_job_success r t Hok _ _ _ _ Hreq Hr), He.
  - intros printer c title ticket tags ct kw req Hreq Hr.
    by rewrite (submit_job_success r t Hok _ _ _ _ _ _ _ _ Hreq Hr), Hjson.
Qed.

Lemma decode_error_propagates_witness :
  (∃ req, run (@get_printer env_garbled "printer-1" no_kwargs) []
            = (Raise ValueError, [req])) ∧
  (∃ req, run (@get_printer env_legacy_garbled "printer-1" no_kwargs) []
            = (Raise AttributeError, [req])) ∧
  (∃ req, run (@delete_job env_garbled "job-1" no_kwargs) []
            = (Raise ValueError, [req])) ∧
  (∃ req, run (@list_printers env_garbled no_kwargs) []
            = (Raise ValueError, [req])) ∧
  (∃ req, run (@list_jobs env_legacy_garbled None no_kwargs) []
            = (Raise ValueError, [req])) ∧
  (∃ req, run (@get_job env_garbled "job-1" None no_kwargs) []
            = (Raise ValueError, [req])) ∧
  (∃ req, run (@submit_job env_garbled "printer-1"
                 (CPair "a.txt" (PBytes [x68; x69])) None None None None
                 no_kwargs) []
            = (Raise ValueError, [req])).
Proof.
  destruct (@decode_error_propagates env_garbled ok_response ValueError []
              eq_refl eq_refl) as (Hgp & Hdj & Hlp & Hlj & Hsj).
  destruct (@decode_error_propagates env_legacy_garbled legacy_response
              ValueError [] eq_refl eq_refl) as (Hgp' & _ & _ & Hlj' & _).
  split; [eexists; apply (Hgp "printer-1" no_kwargs); reflexivity|].
  split; [eexists; apply (Hgp' "printer-1" no_kwargs); reflexivity|].
  split; [eexists; apply (Hdj "job-1" no_kwargs); reflexivity|].
  split; [eexists; apply (Hlp no_kwargs); reflexivity|].
  split; [eexists; apply (Hlj' None no_kwargs); reflexivity|].
  split; [eexists; apply (Hlj None no_kwargs); reflexivity|].
  eexists; eapply Hsj; reflexivity.
Defined.

(** X7: a path that cannot be opened makes [submit_job] raise the error
    of [open] before any request is built or sent, whatever the
    transport would answer. *)
Theorem submit_unreadable_path `{Env} printer path title ticket tags ct kw t :
  ct ≠ Some "url" →
  read_file path = None →
  submit_request printer (CStr path) title ticket tags ct kw
    = Raise (IOError path) ∧
  run (submit_job printer (CStr path) title ticket tags ct kw) t
    = (Raise (IOError path), t).
Proof.
  intros Hct Hfile.
  assert (Hreq : submit_request printer (CStr path) title ticket tags ct kw
                 = Raise (IOError path)).
  { unfold submit_request. simpl.
    destruct (decide (ct = Some "url")); [done|]. by rewrite Hfile. }
  split; [done|]. by rewrite run_submit_job, Hreq.
Qed.

Lemma submit_unreadable_path_witness :
  @submit_request env_200 "printer-1" (CStr "/tmp/missing.pdf") None None
     None None no_kwargs = Raise (IOError "/tmp/missing.pdf") ∧
  run (@submit_job env_200 "printer-1" (CStr "/tmp/missing.pdf") None None
         None None no_kwargs) [] = (Raise (IOError "/tmp/missing.pdf"), []).
Proof.
  apply (@submit_unreadable_path env_200 "printer-1" "/tmp/missing.pdf" None
           None None None no_kwargs []).
  - discriminate.
  - reflexivity.
Defined.

(** X8: the ['tag'] field is part of the submission exactly when [tags]
    is a non-empty list, and then carries every tag; with [None] or an
    empty list no ['tag'] field is sent. *)
Theorem tags_field `{Env} printer c title ticket tags ct kw req :
  submit_request printer c title ticket tags ct kw = Ok req →
  match tags with
  | Some (t :: ts) =>
      form_field req "tag" = Some (FList (t :: ts)) ∧
      sent_field req "tag" = Some (t :: ts)
  | _ => form_field req "tag" = None ∧ sent_field req "tag" = None
  end.
Proof.
  intros Hreq.
  destruct (form_field_submit _ _ _ _ _ _ _ _ "tag" Hreq)
    as (name & body & _ & _ & -> & ->); [done|].
  unfold encode_form. rewrite lookup_omap, submit_data_tag.
  by destruct tags as [[|]|].
Qed.

Lemma tags_field_witness :
  (∃ req,
     @submit_request env_200 "printer-1"
       (CPair "notes.txt" (PBytes [x68; x69]))
       None None (Some ["draft"; "urgent"]) None no_kwargs = Ok req ∧
     form_field req "tag" = Some (FList ["draft"; "urgent"]) ∧
     sent_field req "tag" = Some ["draft"; "urgent"]) ∧
  (∃ req,
     @submit_request env_200 "printer-1"
       (CPair "notes.txt" (PBytes [x68; x69]))
       None None (Some []) None no_kwargs = Ok req ∧
     form_field req "tag" = None ∧ sent_field req "tag" = None).
Proof.
  split.
  - eexists. split; [reflexivity|].
    apply (@tags_field env_200 "printer-1"
             (CPair "notes.txt" (PBytes [x68; x69]))
             None None (Some ["draft"; "urgent"]) None no_kwargs).
    reflexivity.
  - eexists. split; [reflexivity|].
    apply (@tags_field env_200 "printer-1"
             (CPair "notes.txt" (PBytes [x68; x69]))
             None None (Some []) None no_kwargs).
    reflexivity.
Defined.

(** X9: the form data of a submission has exactly the keys [printerid],
    [title], [contentType] and [ticket], with [tag] for a non-empty list
    of tags and [content] when the content goes out as a form field
    (for a caller who passes no files: when no file part is sent);
    nothing else. *)
Theorem submit_form_keys `{Env} printer c title ticket tags ct kw req :
  submit_request printer c title ticket tags ct kw = Ok req →
  ∃ (d : gmap string form_value) name body,
    req_data req = Some d ∧
    normalise_content c ct = Ok (name, body) ∧
    dom d =
      ({[ "printerid"; "title"; "contentType"; "ticket" ]} : gset string) ∪
      match tags with
      | Some (_ :: _) => {[ "tag" ]}
      | _ => ∅
      end ∪
      match decide (ct = Some "url"), body with
      | left _, PStr _ => {[ "content" ]}
      | _, _ => ∅
      end ∧
    (kw_files kw = None →
     dom d =
       ({[ "printerid"; "title"; "contentType"; "ticket" ]} : gset string) ∪
       match tags with
       | Some (_ :: _) => {[ "tag" ]}
       | _ => ∅
       end ∪
       match req_files req with
       | None => {[ "content" ]}
       | Some _ => ∅
       end).
Proof.
  intros Hreq.
  destruct (submit_request_inv _ _ _ _ _ _ _ _ Hreq)
    as (name & body & Hn & _ & _ & _ & _ & _ & _ &
        [(s & -> & -> & Hd & Hf) | (Hcase & Hkf & Hd & Hf)]).
  - eexists _, name, (PStr s). split; [exact Hd|]. split; [done|].
    destruct (decide (Some "url" = Some "url")); [|done].
    split; [|intros Hkf; rewrite Hf, Hkf];
      rewrite dom_insert_L, submit_data_dom; set_solver.
  - eexists _, name, body. split; [exact Hd|]. split; [done|].
    rewrite Hf, submit_data_dom. split; [|intros _; set_solver].
    destruct (decide (ct = Some "url")) as [->|Hne], body as [b|s];
      set_solver.
Qed.

Lemma submit_form_keys_witness :
  ∃ req (d : gmap string form_value),
    @submit_request env_200 "printer-1" (CStr "http://example.com/a.pdf")
      None None (Some ["draft"]) (Some "url") no_kwargs = Ok req ∧
    req_data req = Some d ∧
    dom d =
      ({[ "printerid"; "title"; "contentType"; "ticket" ]} : gset string) ∪
      {[ "tag" ]} ∪ {[ "content" ]}.
Proof.
  destruct (@submit_form_keys env_200 "printer-1"
              (CStr "http://example.com/a.pdf") None None (Some ["draft"])
              (Some "url") no_kwargs _ eq_refl)
    as (d & name & body & Hd & Hn & _ & Hdom).
  eexists _, d. split; [reflexivity|]. split; [exact Hd|].
  exact (Hdom eq_refl).
Defined.

(** X10: the request [submit_job] sends is a POST to the [/submit]
    endpoint; its query parameters and transport options are those of
    [kwargs], the client adds none.  The content goes either as the form
    field ['content'] (only for [content_type] ["url"]; the files are then
    those of [kwargs]) or as the single file part ['content'] with no
    form field ['content']. *)
Theorem submit_request_shape `{Env} printer c title ticket tags ct kw req t :
  submit_request printer c title ticket tags ct kw = Ok req →
  run (submit_job printer c title ticket tags ct kw) t
    = (http t req ≫= respond, (t ++ [req])%list) ∧
  req_method req = POST ∧
  req_url req = "https://www.google.com/cloudprint/submit" ∧
  req_params req = kw_params kw ∧
  req_options req = kw_options kw ∧
  ((ct = Some "url" ∧ is_Some (form_field req "content") ∧
    req_files req = kw_files kw) ∨
   (form_field req "content" = None ∧
    ∃ name body, req_files req = Some {[ "content" := (name, body) ]})).
Proof.
  intros Hreq. split; [by apply submit_job_sends|].
  destruct (submit_request_inv _ _ _ _ _ _ _ _ Hreq)
    as (name & body & _ & _ & _ & Hm & Hurl & Hp & Ho &
        [(s & -> & -> & Hd & Hf) | (_ & _ & Hd & Hf)]);
    (split; [done|]); (split; [done|]); (split; [done|]); (split; [done|]).
  - left. split; [done|]. split; [|done].
    unfold form_field. rewrite Hd. simpl. by simplify_map_eq.
  - right. split; [|by eauto].
    unfold form_field. rewrite Hd. simpl. apply submit_data_content.
Qed.

Lemma submit_request_shape_witness :
  ∃ req,
    run (@submit_job env_200 "printer-1" (CStr "/tmp/docs/report.pdf") None
           None None None
           (mkKwargs None (Some {[ "lang" := "en" ]}) None None
              [("timeout", "30")])) []
      = (Ok (VJson jobs_body), [req]) ∧
    req_method req = POST ∧
    req_url req = "https://www.google.com/cloudprint/submit" ∧
    req_params req = Some {[ "lang" := "en" ]} ∧
    req_options req = [("timeout", "30")] ∧
    ((None = Some "url" ∧ is_Some (form_field req "content") ∧
      req_files req = None) ∨
     (form_field req "content" = None ∧
      ∃ name body, req_files req = Some {[ "content" := (name, body) ]})).
Proof.
  eexists.
  apply (@submit_request_shape env_200 "printer-1"
           (CStr "/tmp/docs/report.pdf") None None None None
           (mkKwargs None (Some {[ "lang" := "en" ]}) None None
              [("timeout", "30")]) _ []).
  reflexivity.
Defined.

(** X11: in the request [submit_job] sends, the printer id, a title and
    a ticket given by the caller appear as they are; a title is kept
    even when it is the empty string (the test is [is None], unlike the
    one on [content_type]). *)
Theorem given_fields_are_sent `{Env} printer c title ticket tags ct kw req t :
  submit_request printer c title ticket tags ct kw = Ok req →
  run (submit_job printer c title ticket tags ct kw) t
    = (http t req ≫= respond, (t ++ [req])%list) ∧
  form_field req "printerid" = Some (FStr printer) ∧
  (∀ s, title = Some s →
        form_field req "title" = Some (FStr s) ∧
        sent_field req "title" = Some [s]) ∧
  (∀ tk, ticket = Some tk →
         form_field req "ticket" = Some (FStr (json_dumps tk)) ∧
         sent_field req "ticket" = Some [json_dumps tk]).
Proof.
  intros Hreq. split; [by apply submit_job_sends|]. split; [|split].
  - destruct (form_field_submit _ _ _ _ _ _ _ _ "printerid" Hreq)
      as (name & body & _ & _ & -> & _); [done|].
    apply submit_data_printerid.
  - intros s ->.
    destruct (form_field_submit _ _ _ _ _ _ _ _ "title" Hreq)
      as (name & body & _ & _ & -> & ->); [done|].
    unfold encode_form. by rewrite lookup_omap, submit_data_title.
  - intros tk ->.
    destruct (form_field_submit _ _ _ _ _ _ _ _ "ticket" Hreq)
      as (name & body & _ & _ & -> & ->); [done|].
    unfold encode_form. by rewrite lookup_omap, submit_data_ticket.
Qed.

Lemma given_fields_are_sent_witness :
  ∃ req,
    run (@submit_job env_200 "printer-1"
           (CPair "notes.txt" (PBytes [x68; x69]))
           (Some "") (Some (JList [])) None None no_kwargs) []
      = (Ok (VJson jobs_body), [req]) ∧
    form_field req "printerid" = Some (FStr "printer-1") ∧
    form_field req "title" = Some (FStr "") ∧
    sent_field req "title" = Some [""] ∧
    form_field req "ticket" = Some (FStr (demo_dumps (JList []))).
Proof.
  eexists.
  destruct (@given_fields_are_sent env_200 "printer-1"
              (CPair "notes.txt" (PBytes [x68; x69])) (Some "")
              (Some (JList [])) None None no_kwargs _ [] eq_refl)
    as (Hrun & Hp & Ht & Hk).
  split; [exact Hrun|]. split; [exact Hp|].
  split; [apply (Ht ""); reflexivity|].
  split; [apply (Ht ""); reflexivity|].
  apply (Hk (JList [])); reflexivity.
Defined.

(** X12: a URL submission and a pair submission never touch the file
    system: two environments that agree on [mimetypes] and [json.dumps]
    build the same request, whatever their files. *)
Theorem submission_without_file_access (E1 E2 : Env)
    printer c title ticket tags ct kw :
  (∀ n, @guess_type E1 n = @guess_type E2 n) →
  (∀ j, @json_dumps E1 j = @json_dumps E2 j) →
  (ct = Some "url" ∨ ∃ name stream, c = CPair name stream) →
  @submit_request E1 printer c title ticket tags ct kw =
  @submit_request E2 printer c title ticket tags ct kw.
Proof.
  intros Hguess Hdumps Hcase.
  assert (Hdata : ∀ name,
            @submit_data E1 printer name title ticket tags ct =
            @submit_data E2 printer name title ticket tags ct).
  { intros name. unfold submit_data. by rewrite Hguess, Hdumps. }
  unfold submit_request.
  destruct c as [name stream | s]; simpl.
  - unfold form_request, multipart_request. by rewrite Hdata.
  - destruct Hcase as [-> | (name & stream & [=])].
    destruct (decide (Some "url" = Some "url")); [|done]. simpl.
    unfold form_request. by rewrite Hdata.
Qed.

Lemma submission_without_file_access_witness :
  @submit_request env_200 "printer-1" (CStr "/tmp/docs/report.pdf") None None
    None (Some "url") no_kwargs =
  @submit_request env_nofs "printer-1" (CStr "/tmp/docs/report.pdf") None None
    None (Some "url") no_kwargs.
Proof.
  apply (submission_without_file_access env_200 env_nofs "printer-1"
           (CStr "/tmp/docs/report.pdf") None None None (Some "url")
           no_kwargs).
  - reflexivity.
  - reflexivity.
  - by left.
Defined.

(** A key of [kwargs] that meets an argument the client passes itself
    makes the call raise. *)
Lemma requests_call_refused m url
    (p : option (gmap string string)) (d : option (gmap string form_value))
    (f : option (gmap string (string * payload))) kw :
  kw_url kw ≠ None ∨ (is_Some p ∧ kw_params kw ≠ None) ∨
  (is_Some d ∧ kw_data kw ≠ None) ∨ (is_Some f ∧ kw_files kw ≠ None) →
  requests_call m url p d f kw = Raise TypeError.
Proof.
  unfold requests_call.
  destruct kw as [ku kp kd kf ko], ku, kp, kd, kf, p, d, f; simpl;
    intros Hc; try done; exfalso;
    destruct Hc as [? | [[[? ?] ?] | [[[? ?] ?] | [[? ?] ?]]]]; congruence.
Qed.

Lemma requests_call_accepted m url
    (p : option (gmap string string)) (d : option (gmap string form_value))
    (f : option (gmap string (string * payload))) kw :
  kw_url kw = None →
  (is_Some p → kw_params kw = None) →
  (is_Some d → kw_data kw = None) →
  (is_Some f → kw_files kw = None) →
  requests_call m url p d f kw =
    Ok (mkRequest m url
          (from_option Some (kw_params kw) p)
          (from_option Some (kw_data kw) d)
          (from_option Some (kw_files kw) f) (kw_options kw)).
Proof.
  unfold requests_call. destruct kw as [ku kp kd kf ko]; simpl.
  intros -> Hp Hd Hf.
  destruct p; [rewrite Hp by eauto|]; (destruct d; [rewrite Hd by eauto|]);
    (destruct f; [rewrite Hf by eauto|]); simpl;
    try done; by destruct kp, kd, kf.
Qed.

Lemma get_job_trace `{Env} id printer kw t :
  snd (run (get_job id printer kw) t) = snd (run (list_jobs printer kw) t).
Proof.
  rewrite run_get_job. by destruct (run (list_jobs printer kw) t) as [[?|?] ?].
Qed.

(** X14: every operation hands exactly one request to the transport, to
    its own endpoint and with its own arguments next to those of
    [kwargs], and [get_job] sends the listing request and nothing else.
    When a key of [kwargs] meets an argument the client passes itself the
    call raises [TypeError] and nothing is sent. *)
Theorem single_round_trip `{Env} (t : trace) :
  (∀ id kw,
     (kw_url kw = None → kw_params kw = None →
      snd (run (get_printer id kw) t) =
        (t ++ [mkRequest POST "https://www.google.com/cloudprint/printer"
                 (Some {[ "printerid" := id ]}) (kw_data kw) (kw_files kw)
                 (kw_options kw)])%list) ∧
     (kw_url kw ≠ None ∨ kw_params kw ≠ None →
      run (get_printer id kw) t = (Raise TypeError, t))) ∧
  (∀ id kw,
     (kw_url kw = None → kw_data kw = None →
      snd (run (delete_job id kw) t) =
        (t ++ [mkRequest POST "https://www.google.com/cloudprint/deletejob"
                 (kw_params kw) (Some {[ "jobid" := FStr id ]}) (kw_files kw)
                 (kw_options kw)])%list) ∧
     (kw_url kw ≠ None ∨ kw_data kw ≠ None →
      run (delete_job id kw) t = (Raise TypeError, t))) ∧
  (∀ kw,
     (kw_url kw = None →
      snd (run (list_printers kw) t) =
        (t ++ [mkRequest GET "https://www.google.com/cloudprint/search"
                 (kw_params kw) (kw_data kw) (kw_files kw)
                 (kw_options kw)])%list) ∧
     (kw_url kw ≠ None →
      run (list_printers kw) t = (Raise TypeError, t))) ∧
  (∀ printer kw,
     (kw_url kw = None → kw_params kw = None →
      ∀ req,
        req = mkRequest GET "https://www.google.com/cloudprint/jobs"
                (Some (match printer with
                       | Some p => {[ "printerid" := p ]}
                       | None => ∅
                       end)) (kw_data kw) (kw_files kw) (kw_options kw) →
        snd (run (list_jobs printer kw) t) = (t ++ [req])%list ∧
        ∀ id, snd (run (get_job id printer kw) t) = (t ++ [req])%list) ∧
     (kw_url kw ≠ None ∨ kw_params kw ≠ None →
      run (list_jobs printer kw) t = (Raise TypeError, t) ∧
      ∀ id, run (get_job id printer kw) t = (Raise TypeError, t))) ∧
  (∀ printer c title ticket tags ct kw,
     match submit_request printer c title ticket tags ct kw with
     | Ok req =>
         snd (run (submit_job printer c title ticket tags ct kw) t)
           = (t ++ [req])%list ∧
         req_method req = POST ∧
         req_url req = "https://www.google.com/cloudprint/submit"
     | Raise e =>
         run (submit_job printer c title ticket tags ct kw) t = (Raise e, t)
     end).
Proof.
  split; [|split; [|split; [|split]]].
  - intros id kw. split.
    + intros Hu Hp. rewrite run_get_printer. unfold get_printer_request.
      rewrite requests_call_accepted by (done || by intros [? [=]]). done.
    + intros Hc. rewrite run_get_printer. unfold get_printer_request.
      rewrite requests_call_refused; [done|].
      destruct Hc; [by left | right; left; eauto].
  - intros id kw. split.
    + intros Hu Hd. rewrite run_delete_job. unfold delete_job_request.
      rewrite requests_call_accepted by (done || by intros [? [=]]). done.
    + intros Hc. rewrite run_delete_job. unfold delete_job_request.
      rewrite requests_call_refused; [done|].
      destruct Hc; [by left | right; right; left; eauto].
  - intros kw. split.
    + intros Hu. rewrite run_list_printers. unfold list_printers_request.
      rewrite requests_call_accepted by (done || by intros [? [=]]). done.
    + intros Hc. rewrite run_list_printers. unfold list_printers_request.
      rewrite requests_call_refused; [done | by left].
  - intros printer kw. split.
    + intros Hu Hp req ->.
      assert (Hl : snd (run (list_jobs printer kw) t) =
        (t ++ [mkRequest GET "https://www.google.com/cloudprint/jobs"
                 (Some (match printer with
                        | Some p => {[ "printerid" := p ]}
                        | None => ∅
                        end)) (kw_data kw) (kw_files kw)
                 (kw_options kw)])%list).
      { rewrite run_list_jobs. unfold list_jobs_request.
        rewrite requests_call_accepted by (done || by intros [? [=]]).
        simpl. by destruct printer. }
      split; [done|]. intros id. by rewrite get_job_trace.
    + intros Hc.
      assert (Hl : run (list_jobs printer kw) t = (Raise TypeError, t)).
      { rewrite run_list_jobs. unfold list_jobs_request.
        rewrite requests_call_refused; [done|].
        destruct Hc; [by left | right; left; eauto]. }
      split; [done|]. intros id. by rewrite run_get_job, Hl.
  - intros printer c title ticket tags ct kw.
    destruct (submit_request printer c title ticket tags ct kw) as [req|e]
      eqn:Hreq.
    + rewrite (submit_job_sends _ _ _ _ _ _ _ _ _ Hreq).
      split; [done|].
      by destruct (submit_request_inv _ _ _ _ _ _ _ _ Hreq)
        as (name & body & _ & _ & _ & Hm & Hurl & _).
    + by rewrite run_submit_job, Hreq.
Qed.

Lemma single_round_trip_witness :
  snd (run (@get_printer env_200 "printer-1" no_kwargs) []) =
    [mkRequest POST "https://www.google.com/cloudprint/printer"
       (Some {[ "printerid" := "printer-1" ]}) None None []] ∧
  run (@delete_job env_200 "job-1"
         (mkKwargs None None (Some {[ "jobid" := FStr "job-2" ]}) None [])) []
    = (Raise TypeError, []) ∧
  snd (run (@get_job env_200 "b" (Some "printer-1") no_kwargs) []) =
    [mkRequest GET "https://www.google.com/cloudprint/jobs"
       (Some {[ "printerid" := "printer-1" ]}) None None []].
Proof.
  destruct (@single_round_trip env_200 []) as (Hgp & Hdj & _ & Hlj & _).
  split; [apply (Hgp "printer-1" no_kwargs); reflexivity|].
  split.
  - apply (Hdj "job-1"
             (mkKwargs None None (Some {[ "jobid" := FStr "job-2" ]}) None [])).
    right. discriminate.
  - apply (proj1 (Hlj (Some "printer-1") no_kwargs) eq_refl eq_refl _ eq_refl).
Defined.

(** X16: once the content is normalised, a [url] or [data] key in
    [kwargs], or a [files] key on the multipart branch, makes
    [submit_job] raise [TypeError] without sending anything. *)
Theorem submit_keyword_collision `{Env} printer c title ticket tags ct kw
    name body t :
  normalise_content c ct = Ok (name, body) →
  kw_url kw ≠ None ∨ kw_data kw ≠ None ∨
  (kw_files kw ≠ None ∧ ¬ (ct = Some "url" ∧ ∃ s, body = PStr s)) →
  run (submit_job printer c title ticket tags ct kw) t = (Raise TypeError, t).
Proof.
  intros Hn Hc. rewrite run_submit_job. unfold submit_request.
  rewrite Hn, bind_Ok.
  assert (Hform : ∀ s, kw_url kw ≠ None ∨ kw_data kw ≠ None →
            form_request printer name title ticket tags ct kw s
              = Raise TypeError).
  { intros s Hc'. unfold form_request. apply requests_call_refused.
    destruct Hc'; [by left | right; right; left; eauto]. }
  assert (Hmulti :
            kw_url kw ≠ None ∨ kw_data kw ≠ None ∨ kw_files kw ≠ None →
            multipart_request printer name title ticket tags ct kw body
              = Raise TypeError).
  { intros Hc'. unfold multipart_request. apply requests_call_refused.
    destruct Hc' as [?|[?|?]];
      [by left | right; right; left; eauto | right; right; right; eauto]. }
  destruct (decide (ct = Some "url")) as [->|Hne], body as [b|s].
  - rewrite Hmulti; [done|]. destruct Hc as [?|[?|[? _]]]; eauto.
  - rewrite Hform; [done|]. destruct Hc as [?|[?|[_ Hno]]]; eauto.
    destruct Hno. eauto.
  - rewrite Hmulti; [done|]. destruct Hc as [?|[?|[? _]]]; eauto.
  - rewrite Hmulti; [done|]. destruct Hc as [?|[?|[? _]]]; eauto.
Qed.

Lemma submit_keyword_collision_witness :
  run (@submit_job env_200 "printer-1" (CStr "/tmp/docs/report.pdf") None
         None None None
         (mkKwargs None None None
            (Some {[ "logo" := ("logo.png", PBytes pdf_bytes) ]}) [])) []
    = (Raise TypeError, []).
Proof.
  eapply (@submit_keyword_collision env_200 "printer-1"
            (CStr "/tmp/docs/report.pdf")).
  - reflexivity.
  - right. right. split; [discriminate | intros [[=] _]].
Defined.
